(** * IFAD job scraper (ifad_scraper.py): extraction and feed serialisation

  A shallow embedding of [scrape_ifad_jobs], [generate_rss_feed] and [main].

  The page that Selenium renders and BeautifulSoup parses is the input: a
  tree of page elements.  Python strings are modelled by [string]; a
  character is a code point below 256, which covers every literal of the
  program.  The clock read by [generate_rss_feed] and the output file are
  explicit arguments. *)

From Stdlib Require Import String Ascii List Bool Arith Lia DecimalString.
Import ListNotations.
Set Warnings "-register-all".
Local Open Scope list_scope.
Local Open Scope string_scope.

(* ================================================================== *)
(** ** Python string operations *)

Module Py.

(** Truth value of a [str]: non-empty. *)
Definition truthy (s : string) : bool := negb (s =? "").

(** [s.startswith(p)]. *)
Definition startswith (p s : string) : bool := String.prefix p s.

(** [needle in hay]. *)
Fixpoint contains (needle hay : string) : bool :=
  String.prefix needle hay ||
  match hay with
  | EmptyString => false
  | String _ h => contains needle h
  end.

(** [c.isspace()] on code points below 256: TAB..CR, FS..US, space,
    NEL and NBSP. *)
Definition isspace (c : ascii) : bool :=
  let n := nat_of_ascii c in
  (((9 <=? n) && (n <=? 13)) || ((28 <=? n) && (n <=? 32))
   || (n =? 133) || (n =? 160))%nat.

Fixpoint lstrip (s : string) : string :=
  match s with
  | EmptyString => EmptyString
  | String c s' => if isspace c then lstrip s' else s
  end.

Fixpoint rstrip (s : string) : string :=
  match s with
  | EmptyString => EmptyString
  | String c s' =>
      match rstrip s' with
      | EmptyString => if isspace c then EmptyString else String c EmptyString
      | r => String c r
      end
  end.

(** [s.strip()]. *)
Definition strip (s : string) : string := rstrip (lstrip s).

(** [c.lower()] on code points below 256: A..Z and the Latin-1 capitals
    (all of 0xC0..0xDE but the multiplication sign). *)
Definition lower_char (c : ascii) : ascii :=
  let n := nat_of_ascii c in
  if (((65 <=? n) && (n <=? 90))
      || ((192 <=? n) && (n <=? 222) && negb (n =? 215)))%nat
  then ascii_of_nat (n + 32) else c.

(** [s.lower()]. *)
Fixpoint lower (s : string) : string :=
  match s with
  | EmptyString => EmptyString
  | String c s' => String (lower_char c) (lower s')
  end.

(** [s[:n]]. *)
Definition slice_to (n : nat) (s : string) : string := substring 0 n s.

(** [sep.join(parts)]. *)
Definition join (sep : string) (parts : list string) : string :=
  String.concat sep parts.

(** [str(n)] for a non-negative [int], as an f-string prints it. *)
Definition str_of_int (n : nat) : string :=
  NilEmpty.string_of_uint (Nat.to_uint n).

(** [enumerate(l)]. *)
Definition enumerate {A : Type} (l : list A) : list (nat * A) :=
  combine (seq 0 (List.length l)) l.

(** [s.split('\n')]: one more piece than there are line feeds. *)
Definition LF : ascii := "010"%char.

Fixpoint split_lines (s : string) : list string :=
  match s with
  | EmptyString => [EmptyString]
  | String c s' =>
      if Ascii.eqb c LF then EmptyString :: split_lines s'
      else match split_lines s' with
           | [] => [String c EmptyString]
           | l :: ls => String c l :: ls
           end
  end.

End Py.

(* ================================================================== *)
(** ** The parsed page (BeautifulSoup) *)

Module Soup.

(** A node of the parse tree.  [NavigableString] is page text; [Comment]
    stands for the string kinds that [get_text] leaves out (comments,
    declarations and the like).  A [Tag] has its name, its single-valued
    attributes (a dictionary: the first binding of a key is the one
    looked up), its [class] attribute, which BeautifulSoup keeps as the
    list of class names, and its children. *)
Inductive PageElement : Type :=
| NavigableString (s : string)
| Comment (s : string)
| Tag (name : string) (attrs : list (string * string))
      (class_ : option (list string)) (contents : list PageElement).

(** The [BeautifulSoup] object is the root tag, named "[document]". *)
Definition BeautifulSoup (contents : list PageElement) : PageElement :=
  Tag "[document]" [] None contents.

(** An element as the program holds it: the node with its chain of
    parents, nearest first ([element.parents]). *)
Definition Element : Type := (list PageElement * PageElement)%type.

Definition node (e : Element) : PageElement := snd e.
Definition parents (e : Element) : list PageElement := fst e.

Fixpoint lookup (key : string) (d : list (string * string)) : option string :=
  match d with
  | [] => None
  | (k, v) :: d' => if k =? key then Some v else lookup key d'
  end.

(** [tag.get(key)] for a single-valued attribute. *)
Definition get (key : string) (n : PageElement) : option string :=
  match n with
  | Tag _ attrs _ _ => lookup key attrs
  | _ => None
  end.

Definition get_class (n : PageElement) : option (list string) :=
  match n with
  | Tag _ _ c _ => c
  | _ => None
  end.

(** [tag.name == nm]; strings have no name. *)
Definition name_is (nm : string) (n : PageElement) : bool :=
  match n with
  | Tag name _ _ _ => name =? nm
  | _ => false
  end.

Definition name_in (names : list string) (n : PageElement) : bool :=
  existsb (fun nm => name_is nm n) names.

(** [tag.descendants]: every node below [n], in document order, each with
    its parents. *)
Fixpoint descendants (ps : list PageElement) (n : PageElement) : list Element :=
  match n with
  | Tag _ _ _ cs =>
      flat_map (fun c => (n :: ps, c) :: descendants (n :: ps) c) cs
  | _ => []
  end.

(** [root.find_all(names, attrs=...)]: the tags below [root] with one of
    the names that pass the attribute test, in document order. *)
Definition find_all (names : list string) (p : PageElement -> bool)
           (root : Element) : list Element :=
  filter (fun e => name_in names (node e) && p (node e))
         (descendants (parents root) (node root)).

(** [root.find(...)]: the first result of [find_all]. *)
Definition find (names : list string) (p : PageElement -> bool)
           (root : Element) : option Element :=
  hd_error (find_all names p root).

(** [element.find_parent(nm)]: the nearest parent with that name. *)
Fixpoint find_parent_in (nm : string) (ps : list PageElement) : option Element :=
  match ps with
  | [] => None
  | p :: ps' => if name_is nm p then Some (ps', p) else find_parent_in nm ps'
  end.

Definition find_parent (nm : string) (e : Element) : option Element :=
  find_parent_in nm (parents e).

(** The text strings below a node, in document order. *)
Fixpoint strings (n : PageElement) : list string :=
  match n with
  | NavigableString s => [s]
  | Comment _ => []
  | Tag _ _ _ cs => flat_map strings cs
  end.

(** [tag.get_text(strip=True)]: every text string stripped, the empty
    ones dropped, the rest concatenated. *)
Definition get_text (e : Element) : string :=
  Py.join "" (filter Py.truthy (map Py.strip (strings (node e)))).

(** Attribute tests of the program. *)

(** [lambda x: x and pat in str(x)] on the [id] attribute. *)
Definition id_contains (pat : string) (n : PageElement) : bool :=
  match get "id" n with
  | Some x => Py.truthy x && Py.contains pat x
  | None => false
  end.

(** [attrs={'id': v}]: the attribute is there and equals [v]. *)
Definition id_is (v : string) (n : PageElement) : bool :=
  match get "id" n with
  | Some x => x =? v
  | None => false
  end.

(** [href=True]: the attribute is there. *)
Definition has_href (n : PageElement) : bool :=
  match get "href" n with
  | Some _ => true
  | None => false
  end.

(** [class_=lambda x: x and 'location' in str(x).lower()].  BeautifulSoup
    tries a function on every class name, then on the names joined by a
    space. *)
Definition location_class (x : string) : bool :=
  Py.truthy x && Py.contains "location" (Py.lower x).

Definition class_is_location (n : PageElement) : bool :=
  match get_class n with
  | Some names =>
      existsb location_class names || location_class (Py.join " " names)
  | None => false
  end.

Definition any_attrs (n : PageElement) : bool := true.

End Soup.

(* ================================================================== *)
(** ** scrape_ifad_jobs *)

Module Scraper.
Import Soup.

(** The [job_data] dictionary: each key is there or not.  ['job_id'] is
    set by the first strategy only. *)
Record job_data : Type := mk_job {
  job_id : option string;
  title : option string;
  link : option string;
  location : option string;
  department : option string;
  description : option string
}.

(** Truth value of [job_data.get(key)]: the key is there and its string
    is not empty. *)
Definition truthy_get (v : option string) : bool :=
  match v with
  | Some s => Py.truthy s
  | None => false
  end.

(** What [job_elements] holds: the dictionaries [{'index': .., 'id': ..}]
    of the first strategy or the anchor tags of the second. *)
Inductive candidate : Type :=
| Indexed (index : nat) (id : string)
| Anchor (element : Element).

Definition JOB_ID_MARK : string := "HRS_APP_JBSCH_I_HRS_JOB_OPENING_ID$".
Definition TITLE_MARK : string := "SCH_JOB_TITLE$".
Definition LOCATION_MARK : string := "LOCATION$".
Definition DEPT_MARK : string := "HRS_APP_JBSCH_I_HRS_DEPT_DESCR$".

Definition ORIGIN : string := "https://job.ifad.org".
Definition BASE_PATH : string :=
  "https://job.ifad.org/psc/IFHRPRDE/CAREERS/JOBS/c/".
Definition DETAIL_URL : string :=
  "https://job.ifad.org/psc/IFHRPRDE/CAREERS/JOBS/c/HRS_HRAM_FL.HRS_CG_SEARCH_FL.GBL?Page=HRS_APP_JBPST&Action=U&FOCUS=Applicant&SiteId=1&JobOpeningId=".

Definition DEFAULT_LOCATION : string := "IFAD".

Definition skip_keywords : list string :=
  ["search"; "filter"; "login"; "sign in"; "home"; "about"; "all jobs"].

(** Lines 70 and 79: the raw matches of the two strategies. *)
Definition job_id_elements (soup : Element) : list Element :=
  find_all ["span"] (id_contains JOB_ID_MARK) soup.

Definition job_links (soup : Element) : list Element :=
  find_all ["a"] (id_contains TITLE_MARK) soup.

(** Lines 67-82: [job_elements] once both strategies have had their
    turn.  An empty list is false in Python. *)
Definition strategy1 (soup : Element) : list candidate :=
  match job_id_elements soup with
  | [] => []
  | els => map (fun p => Indexed (fst p) (get_text (snd p))) (Py.enumerate els)
  end.

Definition strategy2 (soup : Element) : list candidate :=
  match job_links soup with
  | [] => []
  | links => map Anchor links
  end.

Definition job_elements (soup : Element) : list candidate :=
  match strategy1 soup with
  | [] => strategy2 soup
  | found => found
  end.

(** Lines 112-118 and 197-204: the description. *)
Definition description_parts (title location department : string) : list string :=
  let parts := [title] in
  let parts :=
    if Py.truthy location && negb (location =? DEFAULT_LOCATION)
    then app parts ["Location: " ++ location] else parts in
  let parts :=
    if Py.truthy department
    then app parts ["Department: " ++ department] else parts in
  parts.

Definition make_description (title location department : string) : string :=
  Py.join " | " (description_parts title location department).

(** The text of the first span with exactly that id, when there is one. *)
Definition span_text (soup : Element) (id : string) : option string :=
  option_map get_text (find ["span"] (id_is id) soup).

(** Lines 91-124: one dictionary of the first strategy.  [None] is
    [continue] without a record. *)
Definition process_indexed (soup : Element) (job_idx : nat) (id : string)
  : option job_data :=
  match find ["span"] (id_is (TITLE_MARK ++ Py.str_of_int job_idx)) soup with
  | None => None
  | Some title_elem =>
      if negb (Py.truthy (get_text title_elem)) then None
      else
        let title := get_text title_elem in
        let link := DETAIL_URL ++ id in
        let location :=
          match find ["span"] (id_is (LOCATION_MARK ++ Py.str_of_int job_idx)) soup with
          | Some location_elem => get_text location_elem
          | None => DEFAULT_LOCATION
          end in
        let department :=
          match find ["span"] (id_is (DEPT_MARK ++ Py.str_of_int job_idx)) soup with
          | Some dept_elem => get_text dept_elem
          | None => ""
          end in
        let description := make_description title location department in
        if Py.truthy title && Py.truthy link
        then Some (mk_job (Some id) (Some title) (Some link) (Some location)
                          (Some department) (Some description))
        else None
  end.

(** Lines 129-134 and 139-144: a link of the element or below it. *)
Definition resolve_href (href : string) : string :=
  if Py.startswith "http" href then href
  else if Py.startswith "/" href then ORIGIN ++ href
  else BASE_PATH ++ href.

(** Lines 152-155: a link found in the enclosing table row. *)
Definition resolve_row_href (href : string) : string :=
  if Py.startswith "http" href then href
  else ORIGIN ++ href.

(** Lines 127-158: [job_data['link']], or [None] where the loop goes on
    to the next element without one. *)
Definition element_link (element : Element) : option string :=
  if name_is "a" (node element) && truthy_get (get "href" (node element))
  then option_map resolve_href (get "href" (node element))
  else
    match find ["a"] has_href element with
    | Some link_elem => option_map resolve_href (get "href" (node link_elem))
    | None =>
        let row_link :=
          match find_parent "tr" element with
          | Some parent =>
              match find ["a"] has_href parent with
              | Some link_elem =>
                  option_map resolve_row_href (get "href" (node link_elem))
              | None => None
              end
          | None => None
          end in
        if truthy_get row_link then row_link else None
    end.

(** Lines 160-172: [job_data['title']]. *)
Definition element_title (element : Element) : string :=
  if name_is "a" (node element) then get_text element
  else
    let title_elem :=
      match find ["span"; "div"] (id_contains "POSTING_TITLE") element with
      | Some t => Some t
      | None => find ["h2"; "h3"; "h4"; "a"] any_attrs element
      end in
    match title_elem with
    | Some t => get_text t
    | None => Py.slice_to 100 (get_text element)
    end.

(** Lines 182-191: [job_data['location']]. *)
Definition element_location (element : Element) : string :=
  let by_id := find ["span"; "div"] (id_contains "LOCATION") element in
  let by_class :=
    match by_id with
    | Some l => Some l
    | None => find ["span"; "div"; "p"] class_is_location element
    end in
  let location_elem :=
    match by_class with
    | Some l => Some l
    | None =>
        if negb (name_is "a" (node element)) then
          match find_parent "tr" element with
          | Some parent => find ["span"; "div"] (id_contains "LOCATION") parent
          | None => None
          end
        else None
    end in
  match location_elem with
  | Some l => get_text l
  | None => DEFAULT_LOCATION
  end.

(** Lines 193-195: [job_data['department']]. *)
Definition element_department (element : Element) : string :=
  match find ["span"; "div"] (id_contains "DEPARTMENT") element with
  | Some dept_elem => get_text dept_elem
  | None => ""
  end.

(** Lines 126-208: one anchor of the second strategy. *)
Definition process_anchor (element : Element) : option job_data :=
  match element_link element with
  | None => None
  | Some link =>
      let title := element_title element in
      if negb (Py.truthy title) || (String.length title <? 5)%nat then None
      else if existsb (fun keyword => Py.contains keyword (Py.lower title))
                      skip_keywords then None
      else
        let location := element_location element in
        let department := element_department element in
        let description := make_description title location department in
        if Py.truthy title && Py.truthy link
        then Some (mk_job None (Some title) (Some link) (Some location)
                          (Some department) (Some description))
        else None
  end.

(** A skipped element adds nothing to [jobs], a record adds itself. *)
Definition records_of (o : option job_data) : list job_data :=
  match o with
  | Some job => [job]
  | None => []
  end.

(** An element is valid when the loop body ends in [jobs.append]. *)
Definition is_record (o : option job_data) : bool :=
  match o with
  | Some _ => true
  | None => false
  end.

(** The body of the loop at line 86 for one element. *)
Definition process (soup : Element) (c : candidate) : option job_data :=
  match c with
  | Indexed index id => process_indexed soup index id
  | Anchor element => process_anchor element
  end.

(** Lines 86-212: the loop over [job_elements[:50]], appending to [jobs]. *)
Definition loop_step (soup : Element) (jobs : list job_data) (c : candidate)
  : list job_data :=
  match process soup c with
  | Some job => app jobs [job]
  | None => jobs
  end.

Definition MAX_ELEMENTS : nat := 50.

(** The loop over the first 50 of a list of elements. *)
Definition run_loop (soup : Element) (elements : list candidate) : list job_data :=
  fold_left (loop_step soup) (firstn MAX_ELEMENTS elements) [].

Definition scrape_page (soup : Element) : list job_data :=
  run_loop soup (job_elements soup).

(** [scrape_ifad_jobs] on the page the browser delivered and
    [BeautifulSoup(page_source, 'html.parser')] parsed. *)
Definition scrape_ifad_jobs (contents : list PageElement) : list job_data :=
  scrape_page ([], BeautifulSoup contents).

End Scraper.

(* ================================================================== *)
(** ** generate_rss_feed and main *)

Module Feed.
Import Scraper.

(** An [xml.etree.ElementTree.Element]: tag, attributes, text, children
    (no element of the feed has a tail). *)
Inductive ETElement : Type :=
| ET (tag : string) (attrib : list (string * string))
     (text : option string) (children : list ETElement).

Definition tag_of (e : ETElement) : string :=
  match e with ET tag _ _ _ => tag end.
Definition attrib_of (e : ETElement) : list (string * string) :=
  match e with ET _ attrib _ _ => attrib end.
Definition text_of (e : ETElement) : option string :=
  match e with ET _ _ text _ => text end.
Definition children_of (e : ETElement) : list ETElement :=
  match e with ET _ _ _ children => children end.

(** [parent.findall(tag)]: the children with that tag, in order. *)
Definition findall (tag : string) (parent : ETElement) : list ETElement :=
  filter (fun e => tag_of e =? tag) (children_of parent).

(** [datetime.now(timezone.utc)] as the time tuple [strftime] formats
    ([tm_wday]: Monday is 0). *)
Record struct_time : Type := mk_time {
  tm_year : nat;
  tm_mon : nat;
  tm_mday : nat;
  tm_hour : nat;
  tm_min : nat;
  tm_sec : nat;
  tm_wday : nat
}.

Definition day_abbr : list string :=
  ["Mon"; "Tue"; "Wed"; "Thu"; "Fri"; "Sat"; "Sun"].
Definition month_abbr : list string :=
  ["Jan"; "Feb"; "Mar"; "Apr"; "May"; "Jun";
   "Jul"; "Aug"; "Sep"; "Oct"; "Nov"; "Dec"].

Definition digit (n : nat) : ascii := ascii_of_nat (48 + n mod 10).

(** Two decimal digits, as [%d], [%H], [%M] and [%S] print them. *)
Definition two_digits (n : nat) : string :=
  String (digit (n / 10)) (String (digit n) EmptyString).

(** [strftime('%a, %d %b %Y %H:%M:%S +0000')]. *)
Definition strftime (t : struct_time) : string :=
  nth (tm_wday t) day_abbr "" ++ ", " ++ two_digits (tm_mday t) ++ " "
  ++ nth (tm_mon t - 1) month_abbr "" ++ " " ++ Py.str_of_int (tm_year t)
  ++ " " ++ two_digits (tm_hour t) ++ ":" ++ two_digits (tm_min t) ++ ":"
  ++ two_digits (tm_sec t) ++ " +0000".

Definition ATOM_NS : string := "http://www.w3.org/2005/Atom".
Definition FEED_LINK : string :=
  "https://job.ifad.org/psc/IFHRPRDE/CAREERS/JOBS/c/HRS_HRAM_FL.HRS_CG_SEARCH_FL.GBL?Page=HRS_APP_SCHJOB_FL&Action=U".

(** [ET.SubElement(parent, tag)] followed by [.text = text]. *)
Definition text_element (tag text : string) : ETElement :=
  ET tag [] (Some text) [].

(** [job.get(key, default)]. *)
Definition get_or (v : option string) (default : string) : string :=
  match v with
  | Some s => s
  | None => default
  end.

(** Lines 236-253: the channel metadata that no run changes. *)
Definition fixed_metadata : list ETElement :=
  [ text_element "title" "IFAD Jobs";
    text_element "link" FEED_LINK;
    text_element "description"
      "Job listings from International Fund for Agricultural Development (IFAD)";
    text_element "language" "en-us";
    ET ("{" ++ ATOM_NS ++ "}link")
       [("href", "https://cinfoposte.github.io/ifad-jobs/ifad_jobs.xml");
        ("rel", "self"); ("type", "application/rss+xml")] None [] ].

(** Lines 236-257: the channel metadata, [lastBuildDate] last. *)
Definition channel_metadata (now : struct_time) : list ETElement :=
  app fixed_metadata [text_element "lastBuildDate" (strftime now)].

(** Lines 261-275: the item of one job. *)
Definition item_of (job : job_data) : ETElement :=
  ET "item" [] None
     [ text_element "title" (get_or (title job) "Untitled Position");
       text_element "link" (get_or (link job) "");
       text_element "description" (get_or (description job) "");
       ET "guid" [("isPermaLink", "true")] (Some (get_or (link job) "")) [] ].

(** Lines 260-275: the loop appends one item to the channel per job. *)
Definition add_item (channel : list ETElement) (job : job_data) : list ETElement :=
  app channel [item_of job].

(** Lines 231-275: the tree under [rss]. *)
Definition channel_of (now : struct_time) (jobs : list job_data) : ETElement :=
  ET "channel" [] None (fold_left add_item jobs (channel_metadata now)).

Definition rss_tree (now : struct_time) (jobs : list job_data) : ETElement :=
  ET "rss" [("version", "2.0")] None [channel_of now jobs].

(** *** ET.tostring, then minidom.parseString *)

(** A minidom node: text or element. *)
Inductive DOMNode : Type :=
| DText (data : string)
| DElement (tagName : string) (attributes : list (string * string))
           (childNodes : list DOMNode).

(** The characters XML 1.0 allows, below 256: TAB, LF, CR and all from
    space on.  expat refuses a document that holds another one. *)
Definition xml_char (c : ascii) : bool :=
  let n := nat_of_ascii c in
  ((n =? 9) || (n =? 10) || (n =? 13) || (32 <=? n))%nat.

Fixpoint xml_chars (s : string) : bool :=
  match s with
  | EmptyString => true
  | String c s' => xml_char c && xml_chars s'
  end.

(** The parser hands every line end over as LF: CR LF and a lone CR. *)
Definition CR : ascii := "013"%char.

Fixpoint normalize_newlines (s : string) : string :=
  match s with
  | EmptyString => EmptyString
  | String c s' =>
      if Ascii.eqb c CR then
        String Py.LF
          match s' with
          | String c' s'' =>
              if Ascii.eqb c' Py.LF then normalize_newlines s''
              else normalize_newlines s'
          | EmptyString => EmptyString
          end
      else String c (normalize_newlines s')
  end.

(** The name ET prints for a tag: [{uri}local] becomes [atom:local] for
    the namespace registered at line 228. *)
Definition qname (tag : string) : string :=
  let p := "{" ++ ATOM_NS ++ "}" in
  if Py.startswith p tag
  then "atom:" ++ substring (String.length p) (String.length tag) tag
  else tag.

Fixpoint texts_ok (e : ETElement) : bool :=
  match e with
  | ET _ _ text children =>
      xml_chars (get_or text "") && forallb texts_ok children
  end.

(** The element the parser rebuilds from what ET printed: a text that is
    [None] or empty leaves no text node. *)
Fixpoint to_dom (e : ETElement) : DOMNode :=
  match e with
  | ET tag attrib text children =>
      DElement (qname tag) attrib
        (app (if Py.truthy (get_or text "")
              then [DText (normalize_newlines (get_or text ""))] else [])
             (map to_dom children))
  end.

(** The root also carries the declaration of the namespace, which ET
    prints before the attributes. *)
Definition declare_ns (root : DOMNode) : DOMNode :=
  match root with
  | DElement tagName attributes childNodes =>
      DElement tagName (("xmlns:atom", ATOM_NS) :: attributes) childNodes
  | DText _ => root
  end.

(** [minidom.parseString(ET.tostring(rss, encoding='unicode'))]; [None]
    is the ExpatError. *)
Definition parseString_tostring (rss : ETElement) : option DOMNode :=
  if texts_ok rss then Some (declare_ns (to_dom rss)) else None.

(** *** toprettyxml *)

(** minidom's [_write_data]: the four replacements, which amount to one
    pass over the characters. *)
Definition QUOTE : ascii := "034"%char.

Definition escape_char (c : ascii) : string :=
  if Ascii.eqb c "&"%char then "&amp;"
  else if Ascii.eqb c "<"%char then "&lt;"
  else if Ascii.eqb c QUOTE then "&quot;"
  else if Ascii.eqb c ">"%char then "&gt;"
  else String c EmptyString.

Fixpoint write_data (data : string) : string :=
  match data with
  | EmptyString => EmptyString
  | String c d => escape_char c ++ write_data d
  end.

Definition write_attr (a : string * string) : string :=
  " " ++ fst a ++ "=" ++ String QUOTE (write_data (snd a) ++ String QUOTE "").

(** [node.writexml(writer, indent, addindent, newl)]: what is written. *)
Fixpoint writexml (indent addindent newl : string) (n : DOMNode) : string :=
  match n with
  | DText data => write_data (indent ++ data ++ newl)
  | DElement tagName attributes childNodes =>
      indent ++ "<" ++ tagName ++ Py.join "" (map write_attr attributes)
      ++ match childNodes with
         | [] => "/>" ++ newl
         | [DText data] =>
             ">" ++ write_data data ++ "</" ++ tagName ++ ">" ++ newl
         | _ =>
             ">" ++ newl
             ++ Py.join "" (map (writexml (indent ++ addindent) addindent newl)
                                childNodes)
             ++ indent ++ "</" ++ tagName ++ ">" ++ newl
         end
  end.

Definition XML_DECLARATION : string :=
  "<?xml version=" ++ String QUOTE ("1.0" ++ String QUOTE " ?>").

(** [dom.toprettyxml(indent='  ')]. *)
Definition toprettyxml (indent : string) (root : DOMNode) : string :=
  XML_DECLARATION ++ String Py.LF EmptyString
  ++ writexml "" indent (String Py.LF EmptyString) root.

(** Line 283: the blank lines are dropped. *)
Definition remove_blank_lines (pretty_xml : string) : string :=
  Py.join (String Py.LF EmptyString)
          (filter (fun line => Py.truthy (Py.strip line))
                  (Py.split_lines pretty_xml)).

(** Lines 224-283: the text of the feed; [None] when the parser raises. *)
Definition feed_text (now : struct_time) (jobs : list job_data) : option string :=
  match parseString_tostring (rss_tree now jobs) with
  | Some dom => Some (remove_blank_lines (toprettyxml "  " dom))
  | None => None
  end.

(** *** The output file and main *)

(** The files the run can see: path and content. *)
Definition files : Type := list (string * string).

Definition read_file (path : string) (fs : files) : option string :=
  Soup.lookup path fs.

(** [open(path, 'w')] and [write]: the file holds the new content. *)
Definition write_file (path content : string) (fs : files) : files :=
  (path, content) :: filter (fun f => negb (fst f =? path)) fs.

(** How a call ends: it returns, or an exception leaves it. *)
Inductive outcome : Type :=
| Returned (fs : files)
| Raised (fs : files).

Definition files_of (o : outcome) : files :=
  match o with
  | Returned fs => fs
  | Raised fs => fs
  end.

Definition OUTPUT_FILE : string := "ifad_jobs.xml".

(** [generate_rss_feed(jobs, output_file)]. *)
Definition generate_rss_feed (now : struct_time) (jobs : list job_data)
           (output_file : string) (fs : files) : outcome :=
  match feed_text now jobs with
  | Some pretty_xml => Returned (write_file output_file pretty_xml fs)
  | None => Raised fs
  end.

(** [main()] on the page the browser delivered: a list is true when it
    is not empty. *)
Definition main (contents : list Soup.PageElement) (now : struct_time)
           (fs : files) : outcome :=
  let jobs := scrape_ifad_jobs contents in
  match jobs with
  | [] => Returned fs
  | _ => generate_rss_feed now jobs OUTPUT_FILE fs
  end.

End Feed.

(* ================================================================== *)
(** ** Vocabulary of the specification *)

Module Spec.
Import Soup Scraper.

(** What follows the first occurrence of [mark] in [s]. *)
Fixpoint after (mark s : string) : option string :=
  if String.prefix mark s
  then Some (substring (String.length mark) (String.length s) s)
  else match s with
       | EmptyString => None
       | String _ s' => after mark s'
       end.

(** The index suffix a job-opening-ID element carries in its own id. *)
Definition own_suffix (e : Element) : option string :=
  match get "id" (node e) with
  | Some x => after JOB_ID_MARK x
  | None => None
  end.

(** A title that is a stoplist term up to case. *)
Definition stoplist_match (t : string) : bool :=
  existsb (String.eqb (Py.lower t)) skip_keywords.

(** The candidates of a run that end in a record. *)
Definition valid (soup : Element) (c : candidate) : bool :=
  is_record (process soup c).

(** The first span with that id has text. *)
Definition titled (soup : Element) (k : nat) : bool :=
  match span_text soup (TITLE_MARK ++ Py.str_of_int k) with
  | Some t => Py.truthy t
  | None => false
  end.

Definition document (contents : list PageElement) : Element :=
  ([], BeautifulSoup contents).

(** Every character of [s] passes [p]. *)
Fixpoint all_chars (p : ascii -> bool) (s : string) : bool :=
  match s with
  | EmptyString => true
  | String c s' => p c && all_chars p s'
  end.

(** The characters a formatted date is made of: digits, letters, space,
    comma, colon and plus. *)
Definition date_char (c : ascii) : bool :=
  let n := nat_of_ascii c in
  (((48 <=? n) && (n <=? 57)) || ((65 <=? n) && (n <=? 90))
   || ((97 <=? n) && (n <=? 122))
   || (n =? 32) || (n =? 44) || (n =? 58) || (n =? 43))%nat.

Definition not_LF (c : ascii) : bool := negb (Ascii.eqb c Py.LF).

Definition NL : string := String Py.LF EmptyString.

(** [s] without its last character. *)
Fixpoint chop (s : string) : string :=
  match s with
  | EmptyString => EmptyString
  | String c EmptyString => EmptyString
  | String c s' => String c (chop s')
  end.

(** The feed as [toprettyxml] prints it, around the [lastBuildDate] line:
    all that stands before the line feed in front of it, the line itself,
    and all that stands after the line feed behind it. *)
Definition pretty_head : string :=
  Feed.XML_DECLARATION ++ NL
  ++ "<rss" ++ Py.join "" (map Feed.write_attr
                            [("xmlns:atom", Feed.ATOM_NS); ("version", "2.0")])
  ++ ">" ++ NL ++ "  <channel>" ++ NL
  ++ chop (Py.join "" (map (Feed.writexml "    " "  " NL)
                           (map Feed.to_dom Feed.fixed_metadata))).

Definition build_date_line (stamp : string) : string :=
  "    <lastBuildDate>" ++ stamp ++ "</lastBuildDate>".

Definition pretty_tail (jobs : list job_data) : string :=
  Py.join "" (map (Feed.writexml "    " "  " NL)
                  (map Feed.to_dom (map Feed.item_of jobs)))
  ++ "  </channel>" ++ NL ++ "</rss>" ++ NL.

(** The line filter of line 283. *)
Definition keep_line (line : string) : bool := Py.truthy (Py.strip line).

(** What [sep.join] puts before and after one of the joined strings. *)
Definition joined_before (sep : string) (parts : list string) : string :=
  Py.join "" (map (fun part => part ++ sep) parts).

Definition joined_after (sep : string) (parts : list string) : string :=
  Py.join "" (map (fun part => sep ++ part) parts).

(** A text that XML can hold and that stays on one line: no line feed and
    no carriage return in it. *)
Definition line_char (c : ascii) : bool :=
  Feed.xml_char c && not_LF c && negb (Ascii.eqb c Feed.CR).

Definition single_line (s : string) : bool := all_chars line_char s.

(** The three texts [generate_rss_feed] takes from a record, with the
    defaults of [job.get]. *)
Definition item_title_text (job : job_data) : string :=
  Feed.get_or (title job) "Untitled Position".
Definition item_link_text (job : job_data) : string :=
  Feed.get_or (link job) "".
Definition item_description_text (job : job_data) : string :=
  Feed.get_or (description job) "".

Definition single_line_job (job : job_data) : bool :=
  single_line (item_title_text job) && single_line (item_link_text job)
  && single_line (item_description_text job).

(** The line of the written feed for an element that holds [text] and no
    child: the escaped text between the tags, or the empty-element form
    when there is no text. *)
Definition element_line (indent tag : string)
           (attributes : list (string * string)) (text : string) : string :=
  indent ++ "<" ++ tag ++ Py.join "" (map Feed.write_attr attributes)
  ++ (if Py.truthy text
      then ">" ++ Feed.write_data text ++ "</" ++ tag ++ ">"
      else "/>").

(** The six lines of the written feed for the item of one record. *)
Definition item_lines (job : job_data) : list string :=
  [ "    <item>";
    element_line "      " "title" [] (item_title_text job);
    element_line "      " "link" [] (item_link_text job);
    element_line "      " "description" [] (item_description_text job);
    element_line "      " "guid" [("isPermaLink", "true")] (item_link_text job);
    "    </item>" ].

(** The lines of the written feed before the build date. *)
Definition channel_lines : list string :=
  [ Feed.XML_DECLARATION;
    "<rss" ++ Feed.write_attr ("xmlns:atom", Feed.ATOM_NS)
           ++ Feed.write_attr ("version", "2.0") ++ ">";
    "  <channel>";
    "    <title>IFAD Jobs</title>";
    "    <link>https://job.ifad.org/psc/IFHRPRDE/CAREERS/JOBS/c/HRS_HRAM_FL.HRS_CG_SEARCH_FL.GBL?Page=HRS_APP_SCHJOB_FL&amp;Action=U</link>";
    "    <description>Job listings from International Fund for Agricultural Development (IFAD)</description>";
    "    <language>en-us</language>";
    "    <atom:link"
      ++ Feed.write_attr ("href", "https://cinfoposte.github.io/ifad-jobs/ifad_jobs.xml")
      ++ Feed.write_attr ("rel", "self")
      ++ Feed.write_attr ("type", "application/rss+xml") ++ "/>" ].

Definition closing_lines : list string := [ "  </channel>"; "</rss>" ].

(** The lines of the written feed: the channel, the build date, the items
    of the records in their order, the closing tags. *)
Definition feed_lines (now : Feed.struct_time) (jobs : list job_data)
  : list string :=
  app channel_lines
      (build_date_line (Feed.strftime now)
       :: app (flat_map item_lines jobs) closing_lines).

End Spec.

(* ================================================================== *)
(** ** Sample pages *)

Module Pages.
Import Soup Scraper.

Definition span (id text : string) : PageElement :=
  Tag "span" [("id", id)] None [NavigableString text].

Definition anchor (id href text : string) : PageElement :=
  Tag "a" [("id", id); ("href", href)] None [NavigableString text].

Definition table_row (cells : list PageElement) : PageElement :=
  Tag "table" [] None
      [Tag "tr" [] None (map (fun c => Tag "td" [] None [c]) cells)].

(** One posting of the indexed layout whose title is a navigation word. *)
Definition page_home : list PageElement :=
  [ span (JOB_ID_MARK ++ "0") "4711"; span (TITLE_MARK ++ "0") "Home" ].

(** A job-opening id with no title span beside it, and a title link that
    the second strategy would accept. *)
Definition page_links_only : list PageElement :=
  [ span (JOB_ID_MARK ++ "0") "4711";
    anchor (TITLE_MARK ++ "0") "/careers/123" "Senior Agronomist" ].

(** Two job-opening ids with the same suffix. *)
Definition page_duplicate : list PageElement :=
  [ span (JOB_ID_MARK ++ "0") "101"; span (TITLE_MARK ++ "0") "Agronomist";
    span (JOB_ID_MARK ++ "0") "102"; span (TITLE_MARK ++ "1") "Economist" ].

(** [n] postings of the indexed layout; those listed in [untitled] have
    no title span. *)
Definition posting (untitled : list nat) (k : nat) : list PageElement :=
  span (JOB_ID_MARK ++ Py.str_of_int k) (Py.str_of_int (1000 + k))
  :: (if existsb (Nat.eqb k) untitled then []
      else [span (TITLE_MARK ++ Py.str_of_int k)
                 ("Position " ++ Py.str_of_int k)]).

Definition postings (untitled : list nat) (n : nat) : list PageElement :=
  flat_map (posting untitled) (seq 0 n).

(** 52 postings, the first without a title: 51 valid candidates. *)
Definition page_capped : list PageElement := postings [0] 52.

(** 51 postings, all with a title. *)
Definition page_full : list PageElement := postings [] 51.

(** One posting with a location and a department. *)
Definition page_described : list PageElement :=
  [ span (JOB_ID_MARK ++ "0") "4711"; span (TITLE_MARK ++ "0") "Agronomist";
    span (LOCATION_MARK ++ "0") "Rome"; span (DEPT_MARK ++ "0") "Operations" ].

Definition ROW_HREF : string :=
  "HRS_HRAM_FL.HRS_CG_SEARCH_FL.GBL?Page=HRS_APP_JBPST".

(** A title link with no href of its own, in a table row whose other link
    is written relative to the careers base path. *)
Definition page_row : list PageElement :=
  [ table_row
      [ Tag "a" [("href", ROW_HREF)] None [NavigableString "Apply"];
        Tag "a" [("id", TITLE_MARK ++ "0")] None
            [NavigableString "Senior Agronomist"] ] ].

(** A job-opening id with suffix 5, and the title span of index 5. *)
Definition page_skewed : list PageElement :=
  [ span (JOB_ID_MARK ++ "5") "777"; span (TITLE_MARK ++ "5") "Agronomist" ].

(** A job-opening id with suffix 1 between the title spans 0 and 1. *)
Definition page_shifted : list PageElement :=
  [ span (TITLE_MARK ++ "0") "Agronomist";
    span (JOB_ID_MARK ++ "1") "777";
    span (TITLE_MARK ++ "1") "Economist" ].

Definition shifted_element : Element :=
  hd ([], NavigableString "") (job_id_elements ([], BeautifulSoup page_shifted)).

(** One title link of the second layout, and the record it gives. *)
Definition page_anchor : list PageElement :=
  [ anchor (TITLE_MARK ++ "0") "/careers/123" "Senior Agronomist" ].

Definition anchor_element : Element :=
  hd ([], NavigableString "") (job_links ([], BeautifulSoup page_anchor)).

Definition anchor_record : job_data :=
  mk_job None (Some "Senior Agronomist")
         (Some "https://job.ifad.org/careers/123")
         (Some "IFAD") (Some "") (Some "Senior Agronomist").

Definition described_record : job_data :=
  mk_job (Some "4711") (Some "Agronomist") (Some (DETAIL_URL ++ "4711"))
         (Some "Rome") (Some "Operations")
         (Some "Agronomist | Location: Rome | Department: Operations").

Definition shifted_record : job_data :=
  mk_job (Some "777") (Some "Agronomist") (Some (DETAIL_URL ++ "777"))
         (Some "IFAD") (Some "") (Some "Agronomist").




(** Wednesday 4 November 2026, 01:53:07 UTC. *)
Definition sample_time : Feed.struct_time := Feed.mk_time 2026 11 4 1 53 7 2.

End Pages.

(* ================================================================== *)
(** ** Properties of the extraction *)

Import Soup Scraper Spec.

(** *** Strings *)

Lemma truthy_true (s : string) : Py.truthy s = true <-> s <> "".
Proof.
  unfold Py.truthy. rewrite negb_true_iff. apply String.eqb_neq.
Qed.

Lemma prefix_refl (s : string) : String.prefix s s = true.
Proof.
  induction s as [|c s IH]; simpl; [reflexivity|].
  destruct (ascii_dec c c); [exact IH | congruence].
Qed.

Lemma contains_refl (s : string) : Py.contains s s = true.
Proof.
  destruct s as [|c s]; [reflexivity|].
  change (Py.contains (String c s) (String c s))
    with (String.prefix (String c s) (String c s) || Py.contains (String c s) s).
  now rewrite prefix_refl.
Qed.

Lemma not_contained_neq (keyword s : string) :
  Py.contains keyword s = false -> s <> keyword.
Proof.
  intros H E. subst s. rewrite contains_refl in H. discriminate.
Qed.

Lemma append_inj_l (p a b : string) : p ++ a = p ++ b -> a = b.
Proof.
  induction p as [|c p IH]; simpl; intro H; [exact H|].
  injection H as H. auto.
Qed.

(** *** The loop *)

Lemma fold_loop_step (soup : Element) (l : list candidate) (acc : list job_data) :
  fold_left (loop_step soup) l acc
  = app acc (flat_map (fun c => records_of (process soup c)) l).
Proof.
  revert acc. induction l as [|c l IH]; intro acc; simpl.
  - now rewrite app_nil_r.
  - rewrite IH. unfold loop_step.
    destruct (process soup c); simpl; [now rewrite <- app_assoc | reflexivity].
Qed.

Lemma run_loop_eq (soup : Element) (elements : list candidate) :
  run_loop soup elements
  = flat_map (fun c => records_of (process soup c)) (firstn MAX_ELEMENTS elements).
Proof.
  unfold run_loop. now rewrite fold_loop_step.
Qed.

Lemma in_run_loop (soup : Element) (elements : list candidate) (r : job_data) :
  In r (run_loop soup elements) <->
  exists c, In c (firstn MAX_ELEMENTS elements) /\ process soup c = Some r.
Proof.
  rewrite run_loop_eq, in_flat_map. split; intros [c [Hc Hr]]; exists c; split; auto.
  - destruct (process soup c); simpl in Hr; [|contradiction].
    destruct Hr as [->|[]]. reflexivity.
  - rewrite Hr. now left.
Qed.

Lemma flat_map_records_length (soup : Element) (l : list candidate) :
  List.length (flat_map (fun c => records_of (process soup c)) l) <= List.length l.
Proof.
  induction l as [|c l IH]; simpl; [lia|].
  rewrite length_app. destruct (process soup c); simpl; lia.
Qed.

Lemma flat_map_records_all (soup : Element) (l : list candidate) :
  forallb (valid soup) l = true ->
  map Some (flat_map (fun c => records_of (process soup c)) l) = map (process soup) l.
Proof.
  induction l as [|c l IH]; simpl; [reflexivity|].
  rewrite andb_true_iff. intros [Hc Hl]. unfold valid in Hc.
  destruct (process soup c); simpl in *; [|discriminate].
  now rewrite IH.
Qed.

(** *** Which strategy supplies the elements *)

Lemma enumerate_length {A : Type} (l : list A) :
  List.length (Py.enumerate l) = List.length l.
Proof.
  unfold Py.enumerate. rewrite length_combine, length_seq. lia.
Qed.

Lemma combine_seq_nth {A : Type} (l : list A) (b k : nat) (x : A) :
  nth_error l k = Some x ->
  nth_error (combine (seq b (List.length l)) l) k = Some (b + k, x).
Proof.
  revert b k. induction l as [|y l IH]; intros b k H; destruct k; simpl in *;
    try discriminate.
  - injection H as ->. now rewrite Nat.add_0_r.
  - rewrite (IH (S b) k H). f_equal. f_equal. lia.
Qed.

Lemma enumerate_nth {A : Type} (l : list A) (k : nat) (x : A) :
  nth_error l k = Some x -> nth_error (Py.enumerate l) k = Some (k, x).
Proof.
  intro H. unfold Py.enumerate. now rewrite (combine_seq_nth l 0 k x H).
Qed.

Lemma strategy1_length (soup : Element) :
  List.length (strategy1 soup) = List.length (job_id_elements soup).
Proof.
  unfold strategy1. destruct (job_id_elements soup) eqn:E; [reflexivity|].
  now rewrite length_map, enumerate_length.
Qed.

Lemma strategy1_eq (soup : Element) :
  strategy1 soup
  = map (fun p => Indexed (fst p) (get_text (snd p)))
        (Py.enumerate (job_id_elements soup)).
Proof.
  unfold strategy1. now destruct (job_id_elements soup).
Qed.

Lemma job_elements_without_ids (soup : Element) :
  job_id_elements soup = [] -> job_elements soup = map Anchor (job_links soup).
Proof.
  intro H. unfold job_elements, strategy1, strategy2. rewrite H.
  now destruct (job_links soup).
Qed.

Lemma job_elements_with_ids (soup : Element) :
  job_id_elements soup <> [] -> job_elements soup = strategy1 soup.
Proof.
  intro H. unfold job_elements.
  pose proof (strategy1_length soup) as L.
  destruct (strategy1 soup); [|reflexivity].
  destruct (job_id_elements soup); [congruence | discriminate].
Qed.

(** *** What a record is made of *)

Lemma process_indexed_some (soup : Element) (k : nat) (id : string) (r : job_data) :
  process_indexed soup k id = Some r ->
  exists t,
    span_text soup (TITLE_MARK ++ Py.str_of_int k) = Some t /\ t <> "" /\
    r = mk_job (Some id) (Some t) (Some (DETAIL_URL ++ id))
          (Some (match span_text soup (LOCATION_MARK ++ Py.str_of_int k) with
                 | Some l => l | None => DEFAULT_LOCATION end))
          (Some (match span_text soup (DEPT_MARK ++ Py.str_of_int k) with
                 | Some d => d | None => "" end))
          (Some (make_description t
                   (match span_text soup (LOCATION_MARK ++ Py.str_of_int k) with
                    | Some l => l | None => DEFAULT_LOCATION end)
                   (match span_text soup (DEPT_MARK ++ Py.str_of_int k) with
                    | Some d => d | None => "" end))).
Proof.
  unfold process_indexed, span_text.
  destruct (find ["span"] (id_is (TITLE_MARK ++ Py.str_of_int k)) soup)
    as [title_elem|]; [|discriminate].
  destruct (find ["span"] (id_is (LOCATION_MARK ++ Py.str_of_int k)) soup)
    as [location_elem|];
    destruct (find ["span"] (id_is (DEPT_MARK ++ Py.str_of_int k)) soup)
      as [dept_elem|];
    cbn [option_map];
    (destruct (Py.truthy (get_text title_elem)) eqn:T;
       cbn [negb andb]; [|discriminate]);
    (destruct (Py.truthy (DETAIL_URL ++ id)); [|discriminate]);
    intro H; injection H as <-; exists (get_text title_elem);
    (split; [reflexivity|]); (split; [now apply truthy_true|]); reflexivity.
Qed.

Lemma process_anchor_some (element : Element) (r : job_data) :
  process_anchor element = Some r ->
  exists l,
    element_link element = Some l /\
    element_title element <> "" /\
    5 <= String.length (element_title element) /\
    existsb (fun keyword => Py.contains keyword (Py.lower (element_title element)))
            skip_keywords = false /\
    r = mk_job None (Some (element_title element)) (Some l)
          (Some (element_location element)) (Some (element_department element))
          (Some (make_description (element_title element)
                   (element_location element) (element_department element))).
Proof.
  unfold process_anchor.
  destruct (element_link element) as [l|]; [|discriminate].
  destruct (Py.truthy (element_title element)) eqn:T;
    cbn [negb orb andb]; [|discriminate].
  destruct (String.length (element_title element) <? 5)%nat eqn:L; [discriminate|].
  destruct (existsb _ skip_keywords) eqn:K; [discriminate|].
  destruct (Py.truthy l); [|discriminate].
  intro H. injection H as <-. exists l.
  apply Nat.ltb_ge in L. apply truthy_true in T. auto.
Qed.

(** *** The description *)

Lemma description_default (t l d : string) :
  l = DEFAULT_LOCATION \/ l = "" -> d = "" -> make_description t l d = t.
Proof.
  intros [-> | ->] ->; reflexivity.
Qed.

Lemma description_full (t l d : string) :
  l <> DEFAULT_LOCATION -> l <> "" -> d <> "" ->
  make_description t l d = t ++ " | Location: " ++ l ++ " | Department: " ++ d.
Proof.
  intros Hl Hl' Hd. unfold make_description, description_parts.
  apply truthy_true in Hl', Hd. apply String.eqb_neq in Hl.
  rewrite Hl', Hd, Hl. reflexivity.
Qed.

Lemma In_firstn {A : Type} (n : nat) (l : list A) (x : A) :
  In x (firstn n l) -> In x l.
Proof.
  revert l. induction n as [|n IH]; intros [|y l]; simpl; try tauto.
  intros [->|H]; [now left | right; auto].
Qed.

Lemma existsb_false {A : Type} (f : A -> bool) (l : list A) :
  existsb f l = false -> forall x, In x l -> f x = false.
Proof.
  intros H x Hx. destruct (f x) eqn:E; [|reflexivity].
  assert (existsb f l = true) by (apply existsb_exists; eauto). congruence.
Qed.

Lemma no_keyword_no_match (t : string) :
  existsb (fun keyword => Py.contains keyword (Py.lower t)) skip_keywords = false ->
  stoplist_match t = false.
Proof.
  intro H. unfold stoplist_match.
  destruct (existsb (String.eqb (Py.lower t)) skip_keywords) eqn:E; [|reflexivity].
  apply existsb_exists in E as [keyword [Hin Heq]].
  apply String.eqb_eq in Heq.
  pose proof (existsb_false _ _ H keyword Hin) as Hk. cbv beta in Hk.
  now apply not_contained_neq in Hk.
Qed.

Lemma anchors_only (soup : Element) (c : candidate) :
  job_id_elements soup = [] -> In c (job_elements soup) ->
  exists element, c = Anchor element.
Proof.
  intros H Hc. rewrite (job_elements_without_ids soup H) in Hc.
  apply in_map_iff in Hc as [element [<- _]]. now exists element.
Qed.

Lemma in_scrape (contents : list PageElement) (r : job_data) :
  In r (scrape_ifad_jobs contents) <->
  exists c, In c (firstn MAX_ELEMENTS (job_elements (document contents)))
            /\ process (document contents) c = Some r.
Proof.
  apply in_run_loop.
Qed.

Lemma scrape_at_most_50 (contents : list PageElement) :
  List.length (scrape_ifad_jobs contents) <= MAX_ELEMENTS.
Proof.
  unfold scrape_ifad_jobs, scrape_page. rewrite run_loop_eq.
  etransitivity; [apply flat_map_records_length | apply firstn_le_length].
Qed.

(* ------------------------------------------------------------------ *)
(** *** C1: titles of accepted records *)

(** C1, as stated, fails: the indexed-attribute strategy accepts the title
    "Home", which is shorter than 5 characters and is the stoplist term
    "home" up to case. *)
Lemma C1_counterexample :
  map title (scrape_ifad_jobs Pages.page_home) = [Some "Home"] /\
  String.length "Home" = 4 /\
  stoplist_match "Home" = true.
Proof.
  vm_compute. repeat split.
Qed.

(** C1, amended: every accepted record has a title that is not empty; when
    no job-opening-ID element matched, so that the records come from the
    anchor-link strategy, the title also has at least 5 characters and its
    lower-case form contains no stoplist term, hence is none of them. *)
Theorem C1_accepted_titles (contents : list PageElement) (r : job_data) :
  In r (scrape_ifad_jobs contents) ->
  exists t,
    title r = Some t /\ t <> "" /\
    (job_id_elements (document contents) = [] ->
     5 <= String.length t /\
     (forall keyword, In keyword skip_keywords ->
                      Py.contains keyword (Py.lower t) = false) /\
     stoplist_match t = false).
Proof.
  intro H. apply in_scrape in H as [c [Hc Hr]]. apply In_firstn in Hc.
  destruct c as [k id | element]; simpl in Hr.
  - apply process_indexed_some in Hr as [t [_ [Ht ->]]].
    exists t. split; [reflexivity|]. split; [exact Ht|].
    intro E. destruct (anchors_only _ _ E Hc) as [element Habs]. discriminate.
  - apply process_anchor_some in Hr as [l [_ [Ht [Hlen [Hk ->]]]]].
    exists (element_title element). split; [reflexivity|]. split; [exact Ht|].
    intros _. split; [exact Hlen|]. split.
    + intros keyword Hin. exact (existsb_false _ _ Hk keyword Hin).
    + now apply no_keyword_no_match.
Qed.

Lemma C1_witness :
  exists t,
    title Pages.anchor_record = Some t /\ t <> "" /\
    5 <= String.length t /\
    (forall keyword, In keyword skip_keywords ->
                     Py.contains keyword (Py.lower t) = false) /\
    stoplist_match t = false.
Proof.
  destruct (C1_accepted_titles Pages.page_anchor Pages.anchor_record)
    as [t [Ht [Hne Hrest]]].
  - vm_compute. left. reflexivity.
  - exists t. split; [exact Ht|]. split; [exact Hne|].
    apply Hrest. vm_compute. reflexivity.
Defined.

(* ------------------------------------------------------------------ *)
(** *** C2: when the second strategy is tried *)

(** C2, as stated, fails: on a page whose job-opening id has no title span
    the first strategy yields no record, the second would yield one, and
    the run returns nothing: the second strategy is not tried. *)
Lemma C2_counterexample :
  List.length (job_id_elements (document Pages.page_links_only)) = 1 /\
  run_loop (document Pages.page_links_only)
           (strategy1 (document Pages.page_links_only)) = [] /\
  run_loop (document Pages.page_links_only)
           (strategy2 (document Pages.page_links_only)) = [Pages.anchor_record] /\
  scrape_ifad_jobs Pages.page_links_only = [].
Proof.
  vm_compute. repeat split.
Qed.

(** C2, amended: the second strategy is tried exactly when the first finds
    no raw match; once a job-opening-ID element matched, the elements are
    those of the first strategy, whatever becomes of them. *)
Theorem C2_fallthrough_on_raw_matches (contents : list PageElement) :
  (job_id_elements (document contents) = [] ->
   job_elements (document contents) = strategy2 (document contents)) /\
  (job_id_elements (document contents) <> [] ->
   job_elements (document contents) = strategy1 (document contents) /\
   scrape_ifad_jobs contents
   = run_loop (document contents) (strategy1 (document contents))).
Proof.
  split; intro H.
  - unfold job_elements, strategy1. now rewrite H.
  - pose proof (job_elements_with_ids _ H) as E. split; [exact E|].
    unfold scrape_ifad_jobs, scrape_page. fold (document contents).
    now rewrite E.
Qed.

Lemma C2_witness :
  job_elements (document Pages.page_anchor)
  = strategy2 (document Pages.page_anchor) /\
  job_elements (document Pages.page_links_only)
  = strategy1 (document Pages.page_links_only) /\
  scrape_ifad_jobs Pages.page_links_only
  = run_loop (document Pages.page_links_only)
             (strategy1 (document Pages.page_links_only)).
Proof.
  split.
  - apply (proj1 (C2_fallthrough_on_raw_matches Pages.page_anchor)).
    vm_compute. reflexivity.
  - apply (proj2 (C2_fallthrough_on_raw_matches Pages.page_links_only)).
    vm_compute. discriminate.
Defined.

(* ------------------------------------------------------------------ *)
(** *** C3: job-opening ids with the same suffix *)

(** C3, as stated, fails: two matched elements carry the suffix 0, and two
    records are emitted, one for each, the first built from the first. *)
Lemma C3_counterexample :
  map own_suffix (job_id_elements (document Pages.page_duplicate))
  = [Some "0"; Some "0"] /\
  map job_id (scrape_ifad_jobs Pages.page_duplicate) = [Some "101"; Some "102"] /\
  map title (scrape_ifad_jobs Pages.page_duplicate)
  = [Some "Agronomist"; Some "Economist"].
Proof.
  vm_compute. repeat split.
Qed.

Lemma process_indexed_titled (soup : Element) (k : nat) (id : string) :
  map job_id (records_of (process_indexed soup k id))
  = if titled soup k then [Some id] else [].
Proof.
  unfold titled, process_indexed, span_text.
  destruct (find ["span"] (id_is (TITLE_MARK ++ Py.str_of_int k)) soup)
    as [title_elem|]; cbn [option_map]; [|reflexivity].
  destruct (Py.truthy (get_text title_elem)); reflexivity.
Qed.

Lemma indexed_job_ids (soup : Element) (l : list (nat * Element)) :
  map job_id
      (flat_map (fun c => records_of (process soup c))
                (map (fun p => Indexed (fst p) (get_text (snd p))) l))
  = map (fun p => Some (get_text (snd p)))
        (filter (fun p => titled soup (fst p)) l).
Proof.
  induction l as [|[k e] l IH]; [reflexivity|].
  cbn [map flat_map filter fst snd process]. rewrite map_app, IH.
  rewrite process_indexed_titled. now destruct (titled soup k).
Qed.

(** C3, amended: nothing collapses.  Once a job-opening-ID element matched,
    the records are, in order, one for each of the first 50 matched
    elements whose positional title span has text, with that element's text
    as job id; the suffixes play no part. *)
Theorem C3_one_record_per_match (contents : list PageElement) :
  job_id_elements (document contents) <> [] ->
  map job_id (scrape_ifad_jobs contents)
  = map (fun p => Some (get_text (snd p)))
        (filter (fun p => titled (document contents) (fst p))
                (firstn MAX_ELEMENTS
                        (Py.enumerate (job_id_elements (document contents))))).
Proof.
  intro H. unfold scrape_ifad_jobs, scrape_page. fold (document contents).
  rewrite run_loop_eq, (job_elements_with_ids _ H), strategy1_eq, firstn_map.
  apply indexed_job_ids.
Qed.

Lemma C3_witness :
  map job_id (scrape_ifad_jobs Pages.page_duplicate)
  = map (fun p => Some (get_text (snd p)))
        (filter (fun p => titled (document Pages.page_duplicate) (fst p))
                (firstn MAX_ELEMENTS
                        (Py.enumerate
                           (job_id_elements (document Pages.page_duplicate))))).
Proof.
  apply (C3_one_record_per_match Pages.page_duplicate).
  vm_compute. discriminate.
Defined.

(* ------------------------------------------------------------------ *)
(** *** C4: the cap of 50 *)

(** C4, as stated, fails: of 52 candidates the first has no title and the
    other 51 are valid, more than 50; the first 50 candidates give 49
    records. *)
Lemma C4_counterexample :
  List.length (job_elements (document Pages.page_capped)) = 52 /\
  List.length (filter (valid (document Pages.page_capped))
                      (job_elements (document Pages.page_capped))) = 51 /\
  List.length (scrape_ifad_jobs Pages.page_capped) = 49.
Proof.
  vm_compute. repeat split.
Qed.

(** C4, amended: the cap cuts the candidates, not the records.  When the
    winning strategy yields more than 50 candidates and each of the first
    50 is valid, exactly 50 records are emitted: those of the first 50
    candidates, in discovery order; what comes after the 50th candidate is
    not looked at. *)
Theorem C4_first_fifty (contents : list PageElement) :
  MAX_ELEMENTS < List.length (job_elements (document contents)) ->
  forallb (valid (document contents))
          (firstn MAX_ELEMENTS (job_elements (document contents))) = true ->
  List.length (scrape_ifad_jobs contents) = 50 /\
  map Some (scrape_ifad_jobs contents)
  = map (process (document contents))
        (firstn MAX_ELEMENTS (job_elements (document contents))).
Proof.
  intros Hlen Hvalid.
  assert (E : map Some (scrape_ifad_jobs contents)
              = map (process (document contents))
                    (firstn MAX_ELEMENTS (job_elements (document contents)))).
  { unfold scrape_ifad_jobs, scrape_page. fold (document contents).
    rewrite run_loop_eq. now apply flat_map_records_all. }
  split; [|exact E].
  apply (f_equal (@List.length _)) in E. rewrite !length_map in E.
  rewrite E, firstn_length_le; [reflexivity | lia].
Qed.

Lemma C4_witness :
  List.length (scrape_ifad_jobs Pages.page_full) = 50 /\
  map Some (scrape_ifad_jobs Pages.page_full)
  = map (process (document Pages.page_full))
        (firstn MAX_ELEMENTS (job_elements (document Pages.page_full))).
Proof.
  apply (C4_first_fifty Pages.page_full).
  - vm_compute. lia.
  - vm_compute. reflexivity.
Defined.

(* ------------------------------------------------------------------ *)
(** *** C5: the description *)

Lemma process_description (soup : Element) (c : candidate) (r : job_data) :
  process soup c = Some r ->
  exists t l d,
    title r = Some t /\ location r = Some l /\ department r = Some d /\
    description r = Some (make_description t l d).
Proof.
  destruct c as [k id | element]; simpl; intro H.
  - apply process_indexed_some in H as [t [_ [_ ->]]]. simpl. eauto 7.
  - apply process_anchor_some in H as [l [_ [_ [_ [_ ->]]]]]. simpl. eauto 7.
Qed.

(** C5: every accepted record has a title, a location and a department,
    and its description is [make_description] of the three: the title alone
    when the location is "IFAD" or empty and the department is empty, and
    "title | Location: location | Department: department" when the
    location is neither "IFAD" nor empty and the department is not empty. *)
Theorem C5_description (contents : list PageElement) (r : job_data) :
  In r (scrape_ifad_jobs contents) ->
  exists t l d,
    title r = Some t /\ location r = Some l /\ department r = Some d /\
    description r = Some (make_description t l d) /\
    ((l = "IFAD" \/ l = "") -> d = "" -> description r = Some t) /\
    (l <> "IFAD" -> l <> "" -> d <> "" ->
     description r
     = Some (t ++ " | Location: " ++ l ++ " | Department: " ++ d)).
Proof.
  intro H. apply in_scrape in H as [c [_ Hr]].
  apply process_description in Hr as [t [l [d [Ht [Hl [Hd Hdesc]]]]]].
  exists t, l, d. repeat (split; [assumption|]). split.
  - intros Hloc Hdept. rewrite Hdesc. f_equal.
    now apply description_default.
  - intros H1 H2 H3. rewrite Hdesc. f_equal. now apply description_full.
Qed.

Lemma C5_witness :
  description Pages.described_record
  = Some ("Agronomist" ++ " | Location: " ++ "Rome"
          ++ " | Department: " ++ "Operations").
Proof.
  destruct (C5_description Pages.page_described Pages.described_record)
    as [t [l [d [Ht [Hl [Hd [_ [_ Hfull]]]]]]]].
  - vm_compute. left. reflexivity.
  - injection Ht as <-. injection Hl as <-. injection Hd as <-.
    apply Hfull; discriminate.
Defined.

(* ------------------------------------------------------------------ *)
(** *** C6: how a link is resolved *)

Lemma resolve_href_absolute (href : string) :
  Py.startswith "http" href = true -> resolve_href href = href.
Proof.
  unfold resolve_href. now intros ->.
Qed.

Lemma resolve_href_site_relative (rest : string) :
  resolve_href (String "/" rest) = ORIGIN ++ String "/" rest.
Proof.
  unfold resolve_href, Py.startswith. simpl.
  destruct (ascii_dec "/" "/"); [|congruence].
  destruct rest; reflexivity.
Qed.

Lemma resolve_href_other (href : string) :
  Py.startswith "http" href = false -> Py.startswith "/" href = false ->
  resolve_href href = BASE_PATH ++ href.
Proof.
  unfold resolve_href. now intros -> ->.
Qed.

Lemma resolve_row_href_other (href : string) :
  Py.startswith "http" href = false -> resolve_row_href href = ORIGIN ++ href.
Proof.
  unfold resolve_row_href. now intros ->.
Qed.

(** C6 at the failing page: the title link has no href, the link comes
    from the enclosing table row and is neither absolute nor site-relative;
    it is resolved against the origin alone, where a link of the element
    itself is resolved against the base path. *)
Theorem C6_row_link_without_base_path :
  map link (scrape_ifad_jobs Pages.page_row)
  = [Some (ORIGIN ++ Pages.ROW_HREF)] /\
  resolve_href Pages.ROW_HREF = BASE_PATH ++ Pages.ROW_HREF /\
  String.eqb (ORIGIN ++ Pages.ROW_HREF) (BASE_PATH ++ Pages.ROW_HREF) = false.
Proof.
  vm_compute. repeat split.
Qed.

(* ------------------------------------------------------------------ *)
(** *** C10: the index of the sibling lookups *)

(** C10, as stated, fails in its consequence: the only matched element has
    suffix 5, not 0, and no record at all is emitted, so no record takes
    its fields from an index other than its element's suffix. *)
Lemma C10_counterexample :
  map own_suffix (job_id_elements (document Pages.page_skewed)) = [Some "5"] /\
  map Py.str_of_int (seq 0 1) = ["0"] /\
  scrape_ifad_jobs Pages.page_skewed = [].
Proof.
  vm_compute. repeat split.
Qed.

(** C10, amended: the k-th matched job-opening-ID element becomes the k-th
    candidate with index k, whatever suffix its own id carries, and a
    record built from it takes title, location and department from the
    spans SCH_JOB_TITLE$k, LOCATION$k and HRS_APP_JBSCH_I_HRS_DEPT_DESCR$k;
    whether a record is built depends on the title span at index k. *)
Theorem C10_positional_lookup
        (contents : list PageElement) (k : nat) (e : Element) (r : job_data) :
  nth_error (job_id_elements (document contents)) k = Some e ->
  nth_error (job_elements (document contents)) k
  = Some (Indexed k (get_text e)) /\
  (process (document contents) (Indexed k (get_text e)) = Some r ->
   title r = span_text (document contents) (TITLE_MARK ++ Py.str_of_int k) /\
   location r
   = Some (match span_text (document contents)
                           (LOCATION_MARK ++ Py.str_of_int k) with
           | Some l => l
           | None => "IFAD"
           end) /\
   department r
   = Some (match span_text (document contents)
                           (DEPT_MARK ++ Py.str_of_int k) with
           | Some d => d
           | None => ""
           end)).
Proof.
  intro H. split.
  - assert (Hne : job_id_elements (document contents) <> [])
      by (intro E; rewrite E in H; destruct k; discriminate).
    rewrite (job_elements_with_ids _ Hne), strategy1_eq.
    now rewrite (map_nth_error _ _ _ (enumerate_nth _ _ _ H)).
  - cbn [process]. intro Hr.
    apply process_indexed_some in Hr as [t [Ht [_ ->]]].
    cbn [title location department]. now rewrite Ht.
Qed.

Lemma C10_witness :
  own_suffix Pages.shifted_element = Some "1" /\
  nth_error (job_elements (document Pages.page_shifted)) 0
  = Some (Indexed 0 (get_text Pages.shifted_element)) /\
  title Pages.shifted_record
  = span_text (document Pages.page_shifted) (TITLE_MARK ++ Py.str_of_int 0) /\
  span_text (document Pages.page_shifted) (TITLE_MARK ++ Py.str_of_int 0)
  = Some "Agronomist" /\
  span_text (document Pages.page_shifted) (TITLE_MARK ++ "1")
  = Some "Economist".
Proof.
  split; [vm_compute; reflexivity|].
  destruct (C10_positional_lookup Pages.page_shifted 0 Pages.shifted_element
                                  Pages.shifted_record) as [Hnth Hfields].
  - vm_compute. reflexivity.
  - split; [exact Hnth|]. split.
    + apply Hfields. vm_compute. reflexivity.
    + split; vm_compute; reflexivity.
Defined.

Example shifted_page_record :
  scrape_ifad_jobs Pages.page_shifted = [Pages.shifted_record].
Proof.
  vm_compute. reflexivity.
Qed.

(* ================================================================== *)
(** ** Properties of the feed *)

Import Feed.

(** *** Strings and lines *)

Lemma append_assoc (a b c : string) : (a ++ b) ++ c = a ++ b ++ c.
Proof.
  induction a as [|x a IH]; simpl; [reflexivity | now rewrite IH].
Qed.

Lemma append_nil_r (a : string) : a ++ "" = a.
Proof.
  induction a as [|x a IH]; simpl; [reflexivity | now rewrite IH].
Qed.

Lemma join_empty_cons (x : string) (xs : list string) :
  Py.join "" (x :: xs) = x ++ Py.join "" xs.
Proof.
  unfold Py.join. destruct xs; simpl; [now rewrite append_nil_r | reflexivity].
Qed.

Lemma join_single (sep x : string) : Py.join sep [x] = x.
Proof.
  reflexivity.
Qed.

Lemma join_empty_app (xs ys : list string) :
  Py.join "" (app xs ys) = Py.join "" xs ++ Py.join "" ys.
Proof.
  induction xs as [|x xs IH]; [reflexivity|].
  change (app (x :: xs) ys) with (x :: app xs ys).
  now rewrite !join_empty_cons, IH, append_assoc.
Qed.

Lemma join_first (sep y : string) (Y : list string) :
  Py.join sep (y :: Y) = y ++ joined_after sep Y.
Proof.
  revert y. induction Y as [|y' Y IH]; intro y.
  - simpl. now rewrite append_nil_r.
  - unfold joined_after. cbn [map]. rewrite join_empty_cons.
    change (Py.join sep (y :: y' :: Y)) with (y ++ sep ++ Py.join sep (y' :: Y)).
    rewrite IH. unfold joined_after. now rewrite append_assoc.
Qed.

Lemma join_middle (sep : string) (X : list string) (y : string) (Y : list string) :
  Py.join sep (app X (y :: Y))
  = joined_before sep X ++ y ++ joined_after sep Y.
Proof.
  induction X as [|x X IH].
  - apply join_first.
  - unfold joined_before. cbn [map]. rewrite join_empty_cons.
    fold (joined_before sep X). rewrite !append_assoc, <- IH.
    destruct X; reflexivity.
Qed.

Lemma split_lines_not_nil (s : string) : Py.split_lines s <> [].
Proof.
  induction s as [|c s IH]; simpl; [discriminate|].
  destruct (Ascii.eqb c Py.LF); [discriminate|].
  destruct (Py.split_lines s); [congruence | discriminate].
Qed.

Lemma split_lines_app_LF (a b : string) :
  Py.split_lines (a ++ String Py.LF b)
  = app (Py.split_lines a) (Py.split_lines b).
Proof.
  induction a as [|c a IH].
  - reflexivity.
  - cbn [append Py.split_lines]. rewrite IH.
    destruct (Ascii.eqb c Py.LF); [reflexivity|].
    pose proof (split_lines_not_nil a) as Hne.
    destruct (Py.split_lines a); [congruence | reflexivity].
Qed.

Lemma split_lines_one (s : string) :
  all_chars not_LF s = true -> Py.split_lines s = [s].
Proof.
  induction s as [|c s IH]; [reflexivity|].
  cbn [all_chars Py.split_lines]. rewrite andb_true_iff. intros [Hc Hs].
  unfold not_LF in Hc. apply negb_true_iff in Hc. rewrite Hc, (IH Hs).
  reflexivity.
Qed.

Lemma remove_blank_lines_middle (A line B : string) :
  all_chars not_LF line = true -> keep_line line = true ->
  remove_blank_lines (A ++ NL ++ line ++ NL ++ B)
  = joined_before NL (filter keep_line (Py.split_lines A))
    ++ line ++ joined_after NL (filter keep_line (Py.split_lines B)).
Proof.
  intros Hlf Hkeep. unfold remove_blank_lines. fold keep_line.
  unfold NL. cbn [append].
  rewrite !split_lines_app_LF, (split_lines_one line Hlf), !filter_app.
  cbn [filter]. rewrite Hkeep. apply join_middle.
Qed.

Lemma all_chars_app (p : ascii -> bool) (a b : string) :
  all_chars p (a ++ b) = all_chars p a && all_chars p b.
Proof.
  induction a as [|c a IH]; simpl; [reflexivity|].
  now rewrite IH, andb_assoc.
Qed.

Lemma rstrip_keeps (c : ascii) (s : string) :
  Py.isspace c = false -> Py.truthy (Py.rstrip (String c s)) = true.
Proof.
  intro H. cbn [Py.rstrip]. destruct (Py.rstrip s); [rewrite H|]; reflexivity.
Qed.

(** *** The characters of a date *)

Lemma date_char_facts (c : ascii) :
  date_char c = true ->
  xml_char c = true /\ not_LF c = true /\ Ascii.eqb c CR = false /\
  escape_char c = String c EmptyString.
Proof.
  destruct c as [[|] [|] [|] [|] [|] [|] [|] [|]]; vm_compute; intro H;
    first [discriminate H | repeat split].
Qed.

Lemma date_chars_xml (s : string) :
  all_chars date_char s = true -> xml_chars s = true.
Proof.
  induction s as [|c s IH]; [reflexivity|].
  cbn [all_chars xml_chars]. rewrite !andb_true_iff. intros [Hc Hs].
  split; [now apply date_char_facts | auto].
Qed.

Lemma date_chars_not_LF (s : string) :
  all_chars date_char s = true -> all_chars not_LF s = true.
Proof.
  induction s as [|c s IH]; [reflexivity|].
  cbn [all_chars]. rewrite !andb_true_iff. intros [Hc Hs].
  split; [now apply date_char_facts | auto].
Qed.

Lemma date_chars_normalized (s : string) :
  all_chars date_char s = true -> normalize_newlines s = s.
Proof.
  induction s as [|c s IH]; [reflexivity|].
  cbn [all_chars normalize_newlines]. rewrite andb_true_iff. intros [Hc Hs].
  destruct (date_char_facts c Hc) as [_ [_ [Hcr _]]].
  now rewrite Hcr, (IH Hs).
Qed.

Lemma date_chars_written (s : string) :
  all_chars date_char s = true -> write_data s = s.
Proof.
  induction s as [|c s IH]; [reflexivity|].
  cbn [all_chars write_data]. rewrite andb_true_iff. intros [Hc Hs].
  destruct (date_char_facts c Hc) as [_ [_ [_ Hesc]]].
  now rewrite Hesc, (IH Hs).
Qed.

Lemma digit_date (n : nat) : date_char (digit n) = true.
Proof.
  unfold digit. pose proof (Nat.mod_upper_bound n 10) as H.
  destruct (n mod 10) as [|[|[|[|[|[|[|[|[|[|m]]]]]]]]]]; try reflexivity. lia.
Qed.

Lemma two_digits_date (n : nat) : all_chars date_char (two_digits n) = true.
Proof.
  unfold two_digits. cbn [all_chars]. now rewrite !digit_date.
Qed.

Lemma uint_date (u : Decimal.uint) :
  all_chars date_char (NilEmpty.string_of_uint u) = true.
Proof.
  induction u; simpl; auto.
Qed.

Lemma nth_date (k : nat) (names : list string) :
  Forall (fun s => all_chars date_char s = true) names ->
  all_chars date_char (nth k names "") = true.
Proof.
  intro H. revert k. induction H as [|s names Hs _ IH]; intros [|k]; simpl; auto.
Qed.

Lemma strftime_date (now : struct_time) :
  all_chars date_char (strftime now) = true.
Proof.
  unfold strftime, Py.str_of_int.
  rewrite !all_chars_app, !two_digits_date, uint_date.
  rewrite !nth_date; [reflexivity | |]; unfold month_abbr, day_abbr;
    repeat constructor.
Qed.

Lemma strftime_truthy (now : struct_time) : Py.truthy (strftime now) = true.
Proof.
  unfold strftime. destruct (nth (tm_wday now) day_abbr ""); reflexivity.
Qed.

(** *** The tree under [rss] *)

Lemma fold_add_item (jobs : list job_data) (channel : list ETElement) :
  fold_left add_item jobs channel = app channel (map item_of jobs).
Proof.
  revert channel. induction jobs as [|job jobs IH]; intro channel; simpl.
  - now rewrite app_nil_r.
  - rewrite IH. unfold add_item. now rewrite <- app_assoc.
Qed.

Lemma channel_children (now : struct_time) (jobs : list job_data) :
  children_of (channel_of now jobs)
  = app (channel_metadata now) (map item_of jobs).
Proof.
  unfold channel_of. cbn [children_of]. apply fold_add_item.
Qed.

Lemma findall_items (jobs : list job_data) :
  filter (fun e => tag_of e =? "item") (map item_of jobs) = map item_of jobs.
Proof.
  induction jobs as [|job jobs IH]; [reflexivity|].
  cbn [map filter]. change (tag_of (item_of job) =? "item") with true.
  now rewrite IH.
Qed.

(* ------------------------------------------------------------------ *)
(** *** One item per record in the tree *)

(** The tree that [generate_rss_feed] builds: one channel; its children are
    the metadata followed by one item per record, in input order, and
    [findall('item')] gives exactly these; the item of a record has the
    four children title, link, description and guid, holding the record's
    title, link and description (or the defaults of [job.get] where a key
    is missing), the guid marked [isPermaLink="true"] and holding the text
    of the item's link. *)
Lemma tree_one_item_per_record (now : struct_time) (jobs : list job_data) :
  children_of (rss_tree now jobs) = [channel_of now jobs] /\
  children_of (channel_of now jobs)
  = app (channel_metadata now) (map item_of jobs) /\
  findall "item" (channel_of now jobs) = map item_of jobs /\
  (forall job,
      exists item_title item_link item_description guid,
        children_of (item_of job)
        = [item_title; item_link; item_description; guid] /\
        tag_of item_title = "title" /\
        text_of item_title = Some (get_or (title job) "Untitled Position") /\
        tag_of item_link = "link" /\
        text_of item_link = Some (get_or (link job) "") /\
        tag_of item_description = "description" /\
        text_of item_description = Some (get_or (description job) "") /\
        tag_of guid = "guid" /\
        attrib_of guid = [("isPermaLink", "true")] /\
        text_of guid = text_of item_link) /\
  (forall job t l d,
      title job = Some t -> link job = Some l -> description job = Some d ->
      item_of job
      = ET "item" [] None
           [ ET "title" [] (Some t) [];
             ET "link" [] (Some l) [];
             ET "description" [] (Some d) [];
             ET "guid" [("isPermaLink", "true")] (Some l) [] ]).
Proof.
  split; [reflexivity|]. split; [apply channel_children|]. split; [|split].
  - unfold findall. rewrite channel_children, filter_app, findall_items.
    reflexivity.
  - intro job. unfold item_of. do 4 eexists. repeat split.
  - intros job t l d Ht Hl Hd. unfold item_of, text_element.
    now rewrite Ht, Hl, Hd.
Qed.

Example tree_item_of_anchor_record :
  item_of Pages.anchor_record
  = ET "item" [] None
       [ ET "title" [] (Some "Senior Agronomist") [];
         ET "link" [] (Some "https://job.ifad.org/careers/123") [];
         ET "description" [] (Some "Senior Agronomist") [];
         ET "guid" [("isPermaLink", "true")]
            (Some "https://job.ifad.org/careers/123") [] ].
Proof.
  apply (proj2 (proj2 (proj2 (proj2
           (tree_one_item_per_record Pages.sample_time [Pages.anchor_record])))));
    reflexivity.
Qed.

(* ------------------------------------------------------------------ *)
(** *** C9: a run without records *)

(** C9: when the extraction returns no record, [main] returns without
    calling [generate_rss_feed]: the files are what they were. *)
Theorem C9_no_feed_without_records
        (contents : list PageElement) (now : struct_time) (fs : files) :
  scrape_ifad_jobs contents = [] ->
  main contents now fs = Returned fs /\
  forall path, read_file path (files_of (main contents now fs)) = read_file path fs.
Proof.
  intro H. assert (E : main contents now fs = Returned fs)
    by (unfold main; now rewrite H).
  split; [exact E|]. intro path. now rewrite E.
Qed.

Lemma C9_witness :
  main [] Pages.sample_time [] = Returned [] /\
  forall path, read_file path (files_of (main [] Pages.sample_time []))
               = read_file path [].
Proof.
  apply (C9_no_feed_without_records [] Pages.sample_time []).
  reflexivity.
Defined.

(* ------------------------------------------------------------------ *)
(** *** C7: the feed text around the build date *)

Lemma to_dom_no_text (tag : string) (attrib : list (string * string))
      (children : list ETElement) :
  to_dom (ET tag attrib None children)
  = DElement (qname tag) attrib (map to_dom children).
Proof.
  reflexivity.
Qed.

Lemma to_dom_text (tag text : string) :
  Py.truthy text = true ->
  to_dom (text_element tag text)
  = DElement (qname tag) [] [DText (normalize_newlines text)].
Proof.
  intro H. unfold text_element. cbn [to_dom get_or map]. now rewrite H.
Qed.

Lemma writexml_nested (indent addindent newl tagName : string)
      (attributes : list (string * string)) (childNodes : list DOMNode) :
  2 <= List.length childNodes \/
  (exists t a k cs, childNodes = DElement t a k :: cs) ->
  writexml indent addindent newl (DElement tagName attributes childNodes)
  = indent ++ "<" ++ tagName ++ Py.join "" (map write_attr attributes)
    ++ ">" ++ newl
    ++ Py.join "" (map (writexml (indent ++ addindent) addindent newl) childNodes)
    ++ indent ++ "</" ++ tagName ++ ">" ++ newl.
Proof.
  intros [H | [t [a [k [cs ->]]]]]; [|reflexivity].
  destruct childNodes as [|c1 [|c2 cs]]; simpl in H; try lia.
  destruct c1; reflexivity.
Qed.

Lemma writexml_leaf (indent addindent newl tagName data : string) :
  writexml indent addindent newl (DElement tagName [] [DText data])
  = indent ++ "<" ++ tagName ++ ">" ++ write_data data
    ++ "</" ++ tagName ++ ">" ++ newl.
Proof.
  reflexivity.
Qed.

Lemma build_date_written (now : struct_time) :
  writexml "    " "  " NL (to_dom (text_element "lastBuildDate" (strftime now)))
  = build_date_line (strftime now) ++ NL.
Proof.
  rewrite (to_dom_text _ _ (strftime_truthy now)).
  change (qname "lastBuildDate") with "lastBuildDate".
  rewrite writexml_leaf, (date_chars_normalized _ (strftime_date now)),
    (date_chars_written _ (strftime_date now)).
  unfold build_date_line. cbn [append]. now rewrite !append_assoc.
Qed.

Lemma fixed_lines :
  Py.join "" (map (writexml "    " "  " NL) (map to_dom fixed_metadata))
  = chop (Py.join "" (map (writexml "    " "  " NL) (map to_dom fixed_metadata)))
    ++ NL.
Proof.
  vm_compute. reflexivity.
Qed.

Lemma texts_ok_rss (now : struct_time) (jobs : list job_data) :
  texts_ok (rss_tree now jobs) = forallb texts_ok (map item_of jobs).
Proof.
  unfold rss_tree, channel_of. rewrite fold_add_item.
  cbn [texts_ok get_or xml_chars forallb andb].
  rewrite andb_true_r, forallb_app. unfold channel_metadata.
  rewrite forallb_app.
  change (forallb texts_ok fixed_metadata) with true.
  cbn [forallb texts_ok text_element get_or andb].
  now rewrite (date_chars_xml _ (strftime_date now)).
Qed.

(** What [toprettyxml] prints for the feed. *)
Lemma pretty_split (now : struct_time) (jobs : list job_data) :
  toprettyxml "  " (declare_ns (to_dom (rss_tree now jobs)))
  = pretty_head ++ NL ++ build_date_line (strftime now) ++ NL ++ pretty_tail jobs.
Proof.
  unfold rss_tree, channel_of, channel_metadata. rewrite fold_add_item.
  rewrite to_dom_no_text. cbn [map]. rewrite to_dom_no_text.
  change (qname "rss") with "rss". change (qname "channel") with "channel".
  cbn [declare_ns]. unfold toprettyxml. fold NL.
  rewrite writexml_nested by (right; do 4 eexists; reflexivity).
  cbn [map].
  rewrite writexml_nested
    by (left; rewrite length_map, !length_app; simpl; lia).
  change (("" ++ "  ") ++ "  ") with "    ".
  rewrite !map_app, !join_empty_app. cbn [map].
  rewrite !join_single, build_date_written, fixed_lines.
  unfold pretty_head, pretty_tail.
  generalize (chop (Py.join "" (map (writexml "    " "  " NL)
                                    (map to_dom fixed_metadata)))) as head.
  generalize (Py.join "" (map (writexml "    " "  " NL)
                              (map to_dom (map item_of jobs)))) as tail.
  generalize (build_date_line (strftime now)) as line.
  intros line tail head. rewrite ?append_assoc. reflexivity.
Qed.

Lemma build_date_line_kept (stamp : string) :
  keep_line (build_date_line stamp) = true.
Proof.
  unfold keep_line, Py.strip, build_date_line.
  change (Py.lstrip ("    <lastBuildDate>" ++ stamp ++ "</lastBuildDate>"))
    with (String "<" ("lastBuildDate>" ++ stamp ++ "</lastBuildDate>")).
  now apply rstrip_keeps.
Qed.

Lemma build_date_line_not_LF (stamp : string) :
  all_chars date_char stamp = true ->
  all_chars not_LF (build_date_line stamp) = true.
Proof.
  intro H. unfold build_date_line.
  now rewrite !all_chars_app, (date_chars_not_LF _ H).
Qed.

Lemma feed_text_eq (now : struct_time) (jobs : list job_data) :
  feed_text now jobs
  = if forallb texts_ok (map item_of jobs)
    then Some (joined_before NL (filter keep_line (Py.split_lines pretty_head))
               ++ build_date_line (strftime now)
               ++ joined_after NL
                    (filter keep_line (Py.split_lines (pretty_tail jobs))))
    else None.
Proof.
  unfold feed_text, parseString_tostring. rewrite texts_ok_rss.
  destruct (forallb texts_ok (map item_of jobs)); [|reflexivity].
  rewrite pretty_split, remove_blank_lines_middle; [reflexivity | |].
  - apply build_date_line_not_LF, strftime_date.
  - apply build_date_line_kept.
Qed.

(** C7: the text that [generate_rss_feed] writes depends on the record list
    and on the time alone, and on the time only inside the [lastBuildDate]
    element: for a record list either every call raises (a text that XML
    cannot hold) and writes nothing, or there are two strings, fixed by the
    list, between which every call puts the formatted time. *)
Theorem C7_feed_but_for_build_date (jobs : list job_data) :
  (forall now output_file fs,
      generate_rss_feed now jobs output_file fs = Raised fs) \/
  (exists before after,
      forall now output_file fs,
        generate_rss_feed now jobs output_file fs
        = Returned
            (write_file output_file
               (before ++ "<lastBuildDate>" ++ strftime now
                ++ "</lastBuildDate>" ++ after)
               fs)).
Proof.
  destruct (forallb texts_ok (map item_of jobs)) eqn:E.
  - right.
    exists (joined_before NL (filter keep_line (Py.split_lines pretty_head))
            ++ "    "),
           (joined_after NL
              (filter keep_line (Py.split_lines (pretty_tail jobs)))).
    intros now output_file fs. unfold generate_rss_feed.
    rewrite feed_text_eq, E. unfold build_date_line.
    now rewrite ?append_assoc.
  - left. intros now output_file fs. unfold generate_rss_feed.
    now rewrite feed_text_eq, E.
Qed.

Example feed_of_one_record :
  feed_text Pages.sample_time [Pages.anchor_record]
  = Some (Py.join NL
       [ XML_DECLARATION;
         "<rss" ++ write_attr ("xmlns:atom", ATOM_NS)
                ++ write_attr ("version", "2.0") ++ ">";
         "  <channel>";
         "    <title>IFAD Jobs</title>";
         "    <link>https://job.ifad.org/psc/IFHRPRDE/CAREERS/JOBS/c/HRS_HRAM_FL.HRS_CG_SEARCH_FL.GBL?Page=HRS_APP_SCHJOB_FL&amp;Action=U</link>";
         "    <description>Job listings from International Fund for Agricultural Development (IFAD)</description>";
         "    <language>en-us</language>";
         "    <atom:link"
           ++ write_attr ("href", "https://cinfoposte.github.io/ifad-jobs/ifad_jobs.xml")
           ++ write_attr ("rel", "self")
           ++ write_attr ("type", "application/rss+xml") ++ "/>";
         "    <lastBuildDate>Wed, 04 Nov 2026 01:53:07 +0000</lastBuildDate>";
         "    <item>";
         "      <title>Senior Agronomist</title>";
         "      <link>https://job.ifad.org/careers/123</link>";
         "      <description>Senior Agronomist</description>";
         "      <guid" ++ write_attr ("isPermaLink", "true")
                       ++ ">https://job.ifad.org/careers/123</guid>";
         "    </item>";
         "  </channel>";
         "</rss>" ]).
Proof.
  vm_compute. reflexivity.
Qed.

(* ================================================================== *)
(** ** Further properties of the extraction *)

(** *** Links *)

Lemma origin_is_http (rest : string) : Py.startswith "http" (ORIGIN ++ rest) = true.
Proof.
  reflexivity.
Qed.

Lemma base_path_is_http (rest : string) :
  Py.startswith "http" (BASE_PATH ++ rest) = true.
Proof.
  reflexivity.
Qed.

Lemma detail_url_is_http (id : string) :
  Py.startswith "http" (DETAIL_URL ++ id) = true.
Proof.
  reflexivity.
Qed.

Lemma resolve_href_http (href : string) :
  Py.startswith "http" (resolve_href href) = true.
Proof.
  unfold resolve_href.
  destruct (Py.startswith "http" href) eqn:E; [exact E|].
  destruct (Py.startswith "/" href);
    [apply origin_is_http | apply base_path_is_http].
Qed.

Lemma resolve_row_href_http (href : string) :
  Py.startswith "http" (resolve_row_href href) = true.
Proof.
  unfold resolve_row_href.
  destruct (Py.startswith "http" href) eqn:E; [exact E | apply origin_is_http].
Qed.

Lemma http_truthy (l : string) : Py.startswith "http" l = true -> Py.truthy l = true.
Proof.
  destruct l; [discriminate | reflexivity].
Qed.

Lemma element_link_http (element : Element) (l : string) :
  element_link element = Some l -> Py.startswith "http" l = true.
Proof.
  unfold element_link.
  destruct (name_is "a" (node element) && truthy_get (get "href" (node element))).
  - destruct (get "href" (node element)); [|discriminate].
    intro H. injection H as <-. apply resolve_href_http.
  - destruct (find ["a"] has_href element) as [link_elem|].
    + destruct (get "href" (node link_elem)); [|discriminate].
      intro H. injection H as <-. apply resolve_href_http.
    + destruct (find_parent "tr" element) as [parent|]; [|discriminate].
      destruct (find ["a"] has_href parent) as [link_elem|]; [|discriminate].
      destruct (get "href" (node link_elem)) as [href|]; [|discriminate].
      cbn [option_map truthy_get].
      destruct (Py.truthy (resolve_row_href href)); [|discriminate].
      intro H. injection H as <-. apply resolve_row_href_http.
Qed.

(** X1: the link of every accepted record starts with "http": it is the
    job detail URL, an href that was absolute already, or an href put
    behind the origin or the base path. *)
Theorem X1_links_absolute (contents : list PageElement) (r : job_data) :
  In r (scrape_ifad_jobs contents) ->
  exists l, link r = Some l /\ l <> "" /\ Py.startswith "http" l = true.
Proof.
  intro H. apply in_scrape in H as [c [_ Hr]].
  destruct c as [k id | element]; cbn [process] in Hr.
  - apply process_indexed_some in Hr as [t [_ [_ ->]]].
    exists (DETAIL_URL ++ id). split; [reflexivity|]. split.
    + apply truthy_true, http_truthy, detail_url_is_http.
    + apply detail_url_is_http.
  - apply process_anchor_some in Hr as [l [Hl [_ [_ [_ ->]]]]].
    exists l. split; [reflexivity|].
    pose proof (element_link_http _ _ Hl) as Hhttp. split; [|exact Hhttp].
    now apply truthy_true, http_truthy.
Qed.

Lemma X1_witness :
  exists l, link Pages.anchor_record = Some l /\ l <> "" /\
            Py.startswith "http" l = true.
Proof.
  apply (X1_links_absolute Pages.page_anchor Pages.anchor_record).
  vm_compute. left. reflexivity.
Defined.

(** X2: resolving a link a second time changes nothing, whichever of the
    two resolutions is used: what they return is absolute. *)
Theorem X2_resolve_idempotent (href : string) :
  resolve_href (resolve_href href) = resolve_href href /\
  resolve_row_href (resolve_row_href href) = resolve_row_href href /\
  resolve_href (resolve_row_href href) = resolve_row_href href /\
  resolve_row_href (resolve_href href) = resolve_href href.
Proof.
  repeat split.
  - apply resolve_href_absolute, resolve_href_http.
  - unfold resolve_row_href at 1. now rewrite resolve_row_href_http.
  - apply resolve_href_absolute, resolve_row_href_http.
  - unfold resolve_row_href. now rewrite resolve_href_http.
Qed.

(** *** One strategy per run *)

Lemma indexed_only (soup : Element) (c : candidate) :
  job_id_elements soup <> [] -> In c (job_elements soup) ->
  exists k id, c = Indexed k id.
Proof.
  intros H Hc. rewrite (job_elements_with_ids soup H), strategy1_eq in Hc.
  apply in_map_iff in Hc as [[k e] [<- _]]. now exists k, (get_text e).
Qed.

(** X3: the records of one run all come from the same strategy.  When no
    job-opening-ID element matched, no record has a job id; when one
    matched, every record has a job id and its link is the job detail URL
    followed by that id. *)
Theorem X3_one_strategy_per_run (contents : list PageElement) (r : job_data) :
  In r (scrape_ifad_jobs contents) ->
  (job_id_elements (document contents) = [] -> job_id r = None) /\
  (job_id_elements (document contents) <> [] ->
   exists id, job_id r = Some id /\ link r = Some (DETAIL_URL ++ id)).
Proof.
  intro H. apply in_scrape in H as [c [Hc Hr]]. apply In_firstn in Hc.
  split; intro E.
  - destruct (anchors_only _ _ E Hc) as [element ->]. cbn [process] in Hr.
    now apply process_anchor_some in Hr as [l [_ [_ [_ [_ ->]]]]].
  - destruct (indexed_only _ _ E Hc) as [k [id ->]]. cbn [process] in Hr.
    apply process_indexed_some in Hr as [t [_ [_ ->]]]. now exists id.
Qed.

Lemma X3_witness :
  job_id Pages.anchor_record = None /\
  exists id, job_id Pages.described_record = Some id /\
             link Pages.described_record = Some (DETAIL_URL ++ id).
Proof.
  split.
  - apply (X3_one_strategy_per_run Pages.page_anchor Pages.anchor_record).
    + vm_compute. left. reflexivity.
    + vm_compute. reflexivity.
  - apply (X3_one_strategy_per_run Pages.page_described Pages.described_record).
    + vm_compute. left. reflexivity.
    + vm_compute. discriminate.
Defined.

(** *** How many records, and in which order *)

Lemma records_filter (soup : Element) (l : list candidate) :
  map Some (flat_map (fun c => records_of (process soup c)) l)
  = filter is_record (map (process soup) l).
Proof.
  induction l as [|c l IH]; [reflexivity|].
  cbn [flat_map map filter]. rewrite map_app, IH.
  destruct (process soup c); reflexivity.
Qed.

Lemma records_count (soup : Element) (l : list candidate) :
  List.length (flat_map (fun c => records_of (process soup c)) l)
  = List.length (filter (valid soup) l).
Proof.
  induction l as [|c l IH]; [reflexivity|].
  cbn [flat_map filter]. rewrite length_app, IH. unfold valid at 2.
  destruct (process soup c); reflexivity.
Qed.

(** X4: the records are those of the valid ones among the first 50
    candidates, in the order of the candidates: there are as many records
    as valid candidates among the first 50, never more than 50 and never
    more than there are candidates, and none exactly when none of the
    first 50 candidates is valid. *)
Theorem X4_records_of_first_fifty (contents : list PageElement) :
  map Some (scrape_ifad_jobs contents)
  = filter is_record
      (map (process (document contents))
           (firstn MAX_ELEMENTS (job_elements (document contents)))) /\
  List.length (scrape_ifad_jobs contents)
  = List.length (filter (valid (document contents))
                        (firstn MAX_ELEMENTS (job_elements (document contents)))) /\
  List.length (scrape_ifad_jobs contents) <= 50 /\
  List.length (scrape_ifad_jobs contents)
  <= List.length (job_elements (document contents)) /\
  (scrape_ifad_jobs contents = [] <->
   forallb (fun c => negb (valid (document contents) c))
           (firstn MAX_ELEMENTS (job_elements (document contents))) = true).
Proof.
  assert (E : scrape_ifad_jobs contents
              = flat_map (fun c => records_of (process (document contents) c))
                  (firstn MAX_ELEMENTS (job_elements (document contents))))
    by apply run_loop_eq.
  pose proof (records_count (document contents)
                (firstn MAX_ELEMENTS (job_elements (document contents)))) as N.
  rewrite <- E in N.
  pose proof (filter_length_le (valid (document contents))
                (firstn MAX_ELEMENTS (job_elements (document contents)))) as L.
  pose proof (firstn_le_length MAX_ELEMENTS (job_elements (document contents))) as L50.
  pose proof (length_firstn MAX_ELEMENTS (job_elements (document contents))) as Lmin.
  split; [rewrite E; apply records_filter|]. split; [exact N|].
  split; [unfold MAX_ELEMENTS in *; lia|]. split; [lia|].
  rewrite E. generalize (firstn MAX_ELEMENTS (job_elements (document contents))).
  intro l. clear. induction l as [|c l IH]; [split; reflexivity|].
  cbn [flat_map forallb]. unfold valid at 1.
  destruct (process (document contents) c); cbn [records_of is_record negb app andb].
  - split; discriminate.
  - exact IH.
Qed.

(** *** When an element becomes a record *)

Lemma existsb_false_iff {A : Type} (f : A -> bool) (l : list A) :
  existsb f l = false <-> forall x, In x l -> f x = false.
Proof.
  split; [apply existsb_false|].
  intro H. destruct (existsb f l) eqn:E; [|reflexivity].
  apply existsb_exists in E as [x [Hx Hf]]. rewrite (H x Hx) in Hf. discriminate.
Qed.

(** X5: an anchor of the second strategy becomes a record exactly when a
    link can be found for it, its title has at least 5 characters and the
    lower-case title contains no stoplist term; the last test of the loop
    body, on title and link, never rejects. *)
Theorem X5_anchor_accepted (element : Element) :
  is_record (process_anchor element) = true <->
  (exists l, element_link element = Some l) /\
  5 <= String.length (element_title element) /\
  (forall keyword, In keyword skip_keywords ->
                   Py.contains keyword (Py.lower (element_title element)) = false).
Proof.
  split.
  - destruct (process_anchor element) as [r|] eqn:E; [|discriminate].
    intros _. apply process_anchor_some in E as [l [Hl [_ [Hlen [Hk _]]]]].
    split; [now exists l|]. split; [exact Hlen|].
    exact (existsb_false _ _ Hk).
  - intros [[l Hl] [Hlen Hk]]. unfold process_anchor. rewrite Hl.
    assert (T : Py.truthy (element_title element) = true)
      by (destruct (element_title element); [simpl in Hlen; lia | reflexivity]).
    rewrite T. cbn [negb orb andb].
    apply Nat.ltb_ge in Hlen. rewrite Hlen.
    apply existsb_false_iff in Hk. rewrite Hk.
    now rewrite (http_truthy _ (element_link_http _ _ Hl)).
Qed.

Lemma append_truthy (a b : string) :
  Py.truthy (a ++ b) = Py.truthy a || Py.truthy b.
Proof.
  destruct a; reflexivity.
Qed.

Lemma join_empty_truthy (l : list string) :
  Py.truthy (Py.join "" l) = existsb Py.truthy l.
Proof.
  induction l as [|x l IH]; [reflexivity|].
  now rewrite join_empty_cons, append_truthy, IH.
Qed.

Lemma strip_truthy (s : string) :
  Py.truthy (Py.strip s) = negb (all_chars Py.isspace s).
Proof.
  unfold Py.strip. induction s as [|c s IH]; [reflexivity|].
  cbn [Py.lstrip all_chars]. destruct (Py.isspace c) eqn:E; [exact IH|].
  now rewrite (rstrip_keeps c s E).
Qed.

Lemma existsb_filter_same {A : Type} (p : A -> bool) (l : list A) :
  existsb p (filter p l) = existsb p l.
Proof.
  induction l as [|x l IH]; [reflexivity|].
  cbn [filter existsb]. destruct (p x) eqn:E; cbn [existsb]; now rewrite ?E, IH.
Qed.

Lemma existsb_map {A B : Type} (f : A -> B) (p : B -> bool) (l : list A) :
  existsb p (map f l) = existsb (fun x => p (f x)) l.
Proof.
  induction l as [|x l IH]; [reflexivity|]. cbn [map existsb]. now rewrite IH.
Qed.

Lemma existsb_ext {A : Type} (p q : A -> bool) (l : list A) :
  (forall x, p x = q x) -> existsb p l = existsb q l.
Proof.
  intro H. induction l as [|x l IH]; [reflexivity|].
  cbn [existsb]. now rewrite H, IH.
Qed.

Lemma get_text_truthy (e : Element) :
  Py.truthy (get_text e)
  = existsb (fun s => negb (all_chars Py.isspace s)) (strings (node e)).
Proof.
  unfold get_text.
  rewrite join_empty_truthy, existsb_filter_same, existsb_map.
  apply existsb_ext, strip_truthy.
Qed.

(** X6: a dictionary of the first strategy with index k becomes a record
    exactly when the first span whose id is SCH_JOB_TITLE$k holds a text
    string that is not all whitespace; a span without one, and no span at
    all, give no record.  Neither the job id nor the location and
    department spans matter. *)
Theorem X6_indexed_accepted (soup : Element) (k : nat) (id : string) :
  is_record (process_indexed soup k id)
  = match find ["span"] (id_is (TITLE_MARK ++ Py.str_of_int k)) soup with
    | Some title_elem =>
        existsb (fun s => negb (all_chars Py.isspace s))
                (strings (node title_elem))
    | None => false
    end.
Proof.
  unfold process_indexed.
  destruct (find ["span"] (id_is (TITLE_MARK ++ Py.str_of_int k)) soup)
    as [title_elem|]; [|reflexivity].
  rewrite <- get_text_truthy.
  destruct (Py.truthy (get_text title_elem)); reflexivity.
Qed.

(** *** The second strategy only meets anchors *)

Lemma job_links_are_anchors (soup : Element) (element : Element) :
  In element (job_links soup) ->
  name_is "a" (node element) = true /\
  id_contains TITLE_MARK (node element) = true.
Proof.
  unfold job_links, find_all. intro H. apply filter_In in H as [_ H].
  apply andb_true_iff in H as [Hn Hid]. split; [|exact Hid].
  cbn [name_in existsb] in Hn. now rewrite orb_false_r in Hn.
Qed.

Lemma anchor_candidates (soup : Element) (element : Element) :
  In (Anchor element) (job_elements soup) -> In element (job_links soup).
Proof.
  unfold job_elements. rewrite strategy1_eq.
  destruct (map _ (Py.enumerate (job_id_elements soup))) as [|c l] eqn:E.
  - unfold strategy2. destruct (job_links soup) as [|x links] eqn:L;
      [intros [] |].
    intro H. apply in_map_iff in H as [y [Hy Hin]]. now injection Hy as <-.
  - rewrite <- E. intro H. apply in_map_iff in H as [p [Hp _]]. discriminate.
Qed.

(** X7: every element the second strategy hands to the loop is an anchor
    whose id contains SCH_JOB_TITLE$.  For such an element the title is its
    own text, never the text of a POSTING_TITLE or heading child and never
    cut to 100 characters, and the location is never looked up in the
    enclosing table row. *)
Theorem X7_anchor_branches (soup : Element) (element : Element) :
  In (Anchor element) (job_elements soup) ->
  name_is "a" (node element) = true /\
  id_contains TITLE_MARK (node element) = true /\
  element_title element = get_text element /\
  element_location element
  = match find ["span"; "div"] (id_contains "LOCATION") element with
    | Some location_elem => get_text location_elem
    | None =>
        match find ["span"; "div"; "p"] class_is_location element with
        | Some location_elem => get_text location_elem
        | None => "IFAD"
        end
    end.
Proof.
  intro H. apply anchor_candidates, job_links_are_anchors in H as [Hn Hid].
  split; [exact Hn|]. split; [exact Hid|]. split.
  - unfold element_title. now rewrite Hn.
  - unfold element_location. rewrite Hn. cbn [negb].
    destruct (find ["span"; "div"] (id_contains "LOCATION") element);
      [reflexivity|].
    destruct (find ["span"; "div"; "p"] class_is_location element); reflexivity.
Qed.

Lemma X7_witness :
  name_is "a" (node Pages.anchor_element) = true /\
  id_contains TITLE_MARK (node Pages.anchor_element) = true /\
  element_title Pages.anchor_element = get_text Pages.anchor_element /\
  element_location Pages.anchor_element
  = match find ["span"; "div"] (id_contains "LOCATION") Pages.anchor_element with
    | Some location_elem => get_text location_elem
    | None =>
        match find ["span"; "div"; "p"] class_is_location Pages.anchor_element with
        | Some location_elem => get_text location_elem
        | None => "IFAD"
        end
    end.
Proof.
  apply (X7_anchor_branches (document Pages.page_anchor) Pages.anchor_element).
  vm_compute. left. reflexivity.
Defined.

(** *** Titles are trimmed *)

Lemma rstrip_rstrip (s : string) : Py.rstrip (Py.rstrip s) = Py.rstrip s.
Proof.
  induction s as [|c s IH]; [reflexivity|].
  cbn [Py.rstrip]. destruct (Py.rstrip s) as [|d r] eqn:E.
  - destruct (Py.isspace c) eqn:Hc; [reflexivity|].
    cbn [Py.rstrip]. now rewrite Hc.
  - cbn [Py.rstrip] in *. now rewrite IH.
Qed.

Lemma lstrip_head (s : string) :
  Py.lstrip s = "" \/
  exists c r, Py.lstrip s = String c r /\ Py.isspace c = false.
Proof.
  induction s as [|c s IH]; [now left|].
  cbn [Py.lstrip]. destruct (Py.isspace c) eqn:E; [exact IH|].
  right. now exists c, s.
Qed.

Lemma rstrip_head (c : ascii) (s : string) :
  Py.isspace c = false -> exists r, Py.rstrip (String c s) = String c r.
Proof.
  intro H. cbn [Py.rstrip]. destruct (Py.rstrip s) as [|d r].
  - rewrite H. now exists "".
  - now exists (String d r).
Qed.

Lemma strip_head (s : string) :
  Py.strip s = "" \/
  exists c r, Py.strip s = String c r /\ Py.isspace c = false.
Proof.
  unfold Py.strip. destruct (lstrip_head s) as [-> | [c [r [-> Hc]]]];
    [now left|].
  right. destruct (rstrip_head c r Hc) as [r' ->]. now exists c, r'.
Qed.

Lemma rstrip_strip (s : string) : Py.rstrip (Py.strip s) = Py.strip s.
Proof.
  apply rstrip_rstrip.
Qed.

Lemma lstrip_stripped_app (s rest : string) :
  Py.strip s <> "" -> Py.lstrip (Py.strip s ++ rest) = Py.strip s ++ rest.
Proof.
  intro H. destruct (strip_head s) as [E | [c [r [-> Hc]]]]; [contradiction|].
  cbn [append Py.lstrip]. now rewrite Hc.
Qed.

Lemma rstrip_app (a b : string) :
  b <> "" -> Py.rstrip b = b -> Py.rstrip (a ++ b) = a ++ b.
Proof.
  intros Hne Hb. induction a as [|c a IH]; [exact Hb|].
  cbn [append Py.rstrip]. rewrite IH.
  destruct (a ++ b) eqn:E; [|reflexivity].
  destruct a; [simpl in E; contradiction | discriminate].
Qed.

Lemma joined_strips_trimmed (l : list string) :
  Py.lstrip (Py.join "" (filter Py.truthy (map Py.strip l)))
  = Py.join "" (filter Py.truthy (map Py.strip l)) /\
  Py.rstrip (Py.join "" (filter Py.truthy (map Py.strip l)))
  = Py.join "" (filter Py.truthy (map Py.strip l)).
Proof.
  induction l as [|s l [IHl IHr]]; [now split|].
  cbn [map filter]. destruct (Py.truthy (Py.strip s)) eqn:T; [|now split].
  apply truthy_true in T. rewrite join_empty_cons. split.
  - now apply lstrip_stripped_app.
  - destruct (Py.join "" (filter Py.truthy (map Py.strip l))) eqn:E.
    + rewrite append_nil_r. apply rstrip_strip.
    + apply rstrip_app; [discriminate | exact IHr].
Qed.

Lemma get_text_trimmed (e : Element) : Py.strip (get_text e) = get_text e.
Proof.
  destruct (joined_strips_trimmed (strings (node e))) as [Hl Hr].
  unfold get_text. unfold Py.strip at 1. now rewrite Hl, Hr.
Qed.

(** X8: the title of every accepted record is trimmed: stripping it again
    gives the same string, so it neither starts nor ends with whitespace. *)
Theorem X8_titles_trimmed (contents : list PageElement) (r : job_data) :
  In r (scrape_ifad_jobs contents) ->
  exists t, title r = Some t /\ Py.strip t = t.
Proof.
  intro H. apply in_scrape in H as [c [Hc Hr]]. apply In_firstn in Hc.
  destruct c as [k id | element]; cbn [process] in Hr.
  - apply process_indexed_some in Hr as [t [Ht [_ ->]]].
    exists t. split; [reflexivity|]. unfold span_text in Ht.
    destruct (find ["span"] (id_is (TITLE_MARK ++ Py.str_of_int k))
                   (document contents)) as [title_elem|]; [|discriminate].
    injection Ht as <-. apply get_text_trimmed.
  - apply process_anchor_some in Hr as [l [_ [_ [_ [_ ->]]]]].
    exists (element_title element). split; [reflexivity|].
    apply anchor_candidates, job_links_are_anchors in Hc as [Hn _].
    unfold element_title. rewrite Hn. apply get_text_trimmed.
Qed.

Lemma X8_witness :
  exists t, title Pages.anchor_record = Some t /\ Py.strip t = t.
Proof.
  apply (X8_titles_trimmed Pages.page_anchor Pages.anchor_record).
  vm_compute. left. reflexivity.
Defined.

(** *** The description and the title *)

Lemma append_eq_self (t x : string) : t ++ x = t -> x = "".
Proof.
  intro H. apply (append_inj_l t). now rewrite append_nil_r.
Qed.

Lemma description_starts_with_title (t l d : string) :
  exists rest, make_description t l d = t ++ rest.
Proof.
  unfold make_description, description_parts.
  destruct (Py.truthy l && negb (l =? DEFAULT_LOCATION));
    destruct (Py.truthy d); cbn [app]; rewrite join_first; eauto.
Qed.

(** X9: the description is the title alone exactly when there is no
    location to show (it is "IFAD" or empty) and no department; in every
    other case it is longer than the title, which it starts with. *)
Theorem X9_description_is_title (t l d : string) :
  (make_description t l d = t <-> (l = "IFAD" \/ l = "") /\ d = "") /\
  exists rest, make_description t l d = t ++ rest.
Proof.
  split.
  - split; [|intros [Hl ->]; now apply description_default].
    unfold make_description, description_parts.
    destruct (Py.truthy l && negb (l =? DEFAULT_LOCATION)) eqn:El;
      destruct (Py.truthy d) eqn:Ed; cbn [app]; rewrite join_first; intro H;
      apply append_eq_self in H; try discriminate.
    split.
    + apply andb_false_iff in El as [El | El].
      * right. unfold Py.truthy in El. apply negb_false_iff in El.
        now apply String.eqb_eq in El.
      * left. apply negb_false_iff in El. now apply String.eqb_eq in El.
    + unfold Py.truthy in Ed. apply negb_false_iff in Ed.
      now apply String.eqb_eq in Ed.
  - apply description_starts_with_title.
Qed.

(* ================================================================== *)
(** ** Further properties of the feed *)

(** *** The line filter *)

Lemma split_lines_no_LF (s : string) :
  Forall (fun line => all_chars not_LF line = true) (Py.split_lines s).
Proof.
  induction s as [|c s IH]; [repeat constructor|].
  cbn [Py.split_lines]. destruct (Ascii.eqb c Py.LF) eqn:E.
  - constructor; [reflexivity | exact IH].
  - assert (Hc : not_LF c = true) by (unfold not_LF; now rewrite E).
    destruct (Py.split_lines s) as [|l ls].
    + repeat constructor. cbn [all_chars]. now rewrite Hc.
    + inversion IH as [|? ? Hl Hls]; subst. constructor; [|exact Hls].
      cbn [all_chars]. now rewrite Hc, Hl.
Qed.

Lemma split_join_lines (lines : list string) :
  lines <> [] ->
  Forall (fun line => all_chars not_LF line = true) lines ->
  Py.split_lines (Py.join NL lines) = lines.
Proof.
  intros Hne H. induction H as [|x l Hx Hl IH]; [contradiction|].
  destruct l as [|y l].
  - now apply split_lines_one.
  - change (Py.join NL (x :: y :: l))
      with (x ++ String Py.LF (Py.join NL (y :: l))).
    rewrite split_lines_app_LF, (split_lines_one x Hx), IH; [reflexivity|].
    discriminate.
Qed.

Lemma filter_filter {A : Type} (p : A -> bool) (l : list A) :
  filter p (filter p l) = filter p l.
Proof.
  induction l as [|x l IH]; [reflexivity|].
  cbn [filter]. destruct (p x) eqn:E; [|exact IH].
  cbn [filter]. now rewrite E, IH.
Qed.

Lemma Forall_filter {A : Type} (P : A -> Prop) (p : A -> bool) (l : list A) :
  Forall P l -> Forall P (filter p l).
Proof.
  induction 1 as [|x l Hx Hl IH]; [constructor|].
  cbn [filter]. destruct (p x); [constructor|]; assumption.
Qed.

Lemma kept_lines (s : string) :
  filter keep_line (Py.split_lines s) <> [] ->
  Py.split_lines (remove_blank_lines s) = filter keep_line (Py.split_lines s).
Proof.
  intro H. unfold remove_blank_lines. fold keep_line. fold NL.
  apply split_join_lines; [exact H|].
  apply Forall_filter, split_lines_no_LF.
Qed.

(** X11: dropping the blank lines a second time changes nothing. *)
Theorem X11_remove_blank_lines_idempotent (s : string) :
  remove_blank_lines (remove_blank_lines s) = remove_blank_lines s.
Proof.
  destruct (filter keep_line (Py.split_lines s)) as [|x l] eqn:E.
  - assert (R : remove_blank_lines s = "")
      by (unfold remove_blank_lines; fold keep_line; now rewrite E).
    rewrite R. reflexivity.
  - assert (Hne : filter keep_line (Py.split_lines s) <> [])
      by (rewrite E; discriminate).
    change (remove_blank_lines (remove_blank_lines s))
      with (Py.join (String Py.LF "")
              (filter keep_line (Py.split_lines (remove_blank_lines s)))).
    rewrite (kept_lines s Hne), filter_filter. reflexivity.
Qed.

Lemma feed_text_some (now : struct_time) (jobs : list job_data) (text : string) :
  feed_text now jobs = Some text ->
  text = remove_blank_lines
           (toprettyxml "  " (declare_ns (to_dom (rss_tree now jobs)))).
Proof.
  unfold feed_text, parseString_tostring.
  destruct (texts_ok (rss_tree now jobs)); [|discriminate].
  intro H. symmetry. now injection H.
Qed.

(** X12: the text of the feed has no blank line: each of its lines holds a
    character that is not whitespace, and the line of the build date is one
    of them. *)
Theorem X12_feed_without_blank_lines
        (now : struct_time) (jobs : list job_data) (pretty_xml : string) :
  feed_text now jobs = Some pretty_xml ->
  (forall line, In line (Py.split_lines pretty_xml) ->
                Py.truthy (Py.strip line) = true) /\
  In (build_date_line (strftime now)) (Py.split_lines pretty_xml).
Proof.
  intro H. apply feed_text_some in H. subst pretty_xml. rewrite pretty_split.
  assert (Hin : In (build_date_line (strftime now))
                   (filter keep_line
                      (Py.split_lines
                         (pretty_head ++ NL ++ build_date_line (strftime now)
                          ++ NL ++ pretty_tail jobs)))).
  { unfold NL. cbn [append]. rewrite !split_lines_app_LF.
    rewrite (split_lines_one _ (build_date_line_not_LF _ (strftime_date now))).
    apply filter_In. split; [|apply build_date_line_kept].
    apply in_or_app. right. now left. }
  rewrite kept_lines by (intro E; rewrite E in Hin; exact Hin).
  split; [|exact Hin].
  intros line Hl. now apply filter_In in Hl as [_ Hl].
Qed.

Lemma X12_witness :
  (forall line,
      In line (Py.split_lines
                 (remove_blank_lines
                    (toprettyxml "  "
                       (declare_ns (to_dom (rss_tree Pages.sample_time
                                                     [Pages.anchor_record]))))))
      -> Py.truthy (Py.strip line) = true) /\
  In (build_date_line (strftime Pages.sample_time))
     (Py.split_lines
        (remove_blank_lines
           (toprettyxml "  "
              (declare_ns (to_dom (rss_tree Pages.sample_time
                                            [Pages.anchor_record])))))).
Proof.
  apply (X12_feed_without_blank_lines Pages.sample_time [Pages.anchor_record]).
  reflexivity.
Defined.

(** *** When the feed cannot be written *)

Lemma texts_ok_item (job : job_data) :
  texts_ok (item_of job)
  = xml_chars (get_or (title job) "Untitled Position")
    && xml_chars (get_or (link job) "")
    && xml_chars (get_or (description job) "").
Proof.
  unfold item_of, text_element.
  cbn [texts_ok get_or xml_chars forallb andb].
  destruct (xml_chars (get_or (title job) "Untitled Position"));
    destruct (xml_chars (get_or (link job) ""));
    destruct (xml_chars (get_or (description job) "")); reflexivity.
Qed.

(** X13: [generate_rss_feed] raises, and writes nothing, exactly when the
    title, the link or the description of some record holds a character
    that XML does not allow (a control character other than TAB, LF and
    CR); the time plays no part in it.  Otherwise it returns and the output
    file holds the text of the feed. *)
Theorem X13_feed_refused
        (now : struct_time) (jobs : list job_data) (output_file : string)
        (fs : files) :
  (generate_rss_feed now jobs output_file fs = Raised fs <->
   exists job,
     In job jobs /\
     xml_chars (get_or (title job) "Untitled Position")
     && xml_chars (get_or (link job) "")
     && xml_chars (get_or (description job) "") = false) /\
  (generate_rss_feed now jobs output_file fs = Raised fs \/
   exists pretty_xml,
     feed_text now jobs = Some pretty_xml /\
     generate_rss_feed now jobs output_file fs
     = Returned (write_file output_file pretty_xml fs)).
Proof.
  unfold generate_rss_feed. rewrite feed_text_eq.
  destruct (forallb texts_ok (map item_of jobs)) eqn:E.
  - split; [|right; eauto]. split; [discriminate|].
    intros [job [Hin Hbad]].
    rewrite forallb_forall in E.
    specialize (E (item_of job) (in_map item_of jobs job Hin)).
    rewrite texts_ok_item in E. congruence.
  - split; [|now left]. split; [|reflexivity]. intros _.
    assert (H : existsb (fun e => negb (texts_ok e)) (map item_of jobs) = true).
    { clear -E. induction (map item_of jobs) as [|e l IH]; [discriminate|].
      cbn [forallb existsb] in *. destruct (texts_ok e); cbn [negb orb andb] in *;
        auto. }
    apply existsb_exists in H as [e [He Hbad]].
    apply in_map_iff in He as [job [<- Hin]].
    exists job. split; [exact Hin|].
    rewrite <- texts_ok_item. now apply negb_true_iff.
Qed.

(** *** The files *)





(* ================================================================== *)
(** ** The items in the written feed *)

Lemma line_char_facts (c : ascii) :
  line_char c = true ->
  xml_char c = true /\ not_LF c = true /\ Ascii.eqb c CR = false /\
  all_chars not_LF (escape_char c) = true.
Proof.
  destruct c as [[|] [|] [|] [|] [|] [|] [|] [|]]; vm_compute; intro H;
    first [discriminate H | repeat split].
Qed.

Lemma single_line_xml (s : string) : single_line s = true -> xml_chars s = true.
Proof.
  unfold single_line. induction s as [|c s IH]; [reflexivity|].
  cbn [all_chars xml_chars]. rewrite !andb_true_iff. intros [Hc Hs].
  split; [now apply line_char_facts | auto].
Qed.

Lemma single_line_normalized (s : string) :
  single_line s = true -> normalize_newlines s = s.
Proof.
  unfold single_line. induction s as [|c s IH]; [reflexivity|].
  cbn [all_chars normalize_newlines]. rewrite andb_true_iff. intros [Hc Hs].
  destruct (line_char_facts c Hc) as [_ [_ [Hcr _]]]. now rewrite Hcr, (IH Hs).
Qed.

Lemma single_line_written (s : string) :
  single_line s = true -> all_chars not_LF (write_data s) = true.
Proof.
  unfold single_line. induction s as [|c s IH]; [reflexivity|].
  cbn [all_chars write_data]. rewrite andb_true_iff. intros [Hc Hs].
  destruct (line_char_facts c Hc) as [_ [_ [_ Hesc]]].
  now rewrite all_chars_app, Hesc, (IH Hs).
Qed.

Lemma single_line_job_texts (job : job_data) :
  single_line_job job = true ->
  single_line (item_title_text job) = true /\
  single_line (item_link_text job) = true /\
  single_line (item_description_text job) = true.
Proof.
  unfold single_line_job. rewrite !andb_true_iff. tauto.
Qed.

Lemma texts_ok_single_lines (jobs : list job_data) :
  forallb single_line_job jobs = true ->
  forallb texts_ok (map item_of jobs) = true.
Proof.
  induction jobs as [|job jobs IH]; [reflexivity|].
  cbn [forallb map]. rewrite !andb_true_iff. intros [Hjob Hjobs].
  split; [|auto]. rewrite texts_ok_item.
  destruct (single_line_job_texts job Hjob) as [Ht [Hl Hd]].
  apply single_line_xml in Ht, Hl, Hd.
  unfold item_title_text, item_link_text, item_description_text in *.
  now rewrite Ht, Hl, Hd.
Qed.

Lemma written_text_element (indent tag : string)
      (attrib : list (string * string)) (text : string) :
  single_line text = true ->
  writexml indent "  " NL (to_dom (ET tag attrib (Some text) []))
  = element_line indent (qname tag) attrib text ++ NL.
Proof.
  intro H. cbn [to_dom get_or map]. rewrite (single_line_normalized _ H).
  unfold element_line. destruct (Py.truthy text); cbn [app writexml];
    rewrite ?append_assoc; reflexivity.
Qed.

Lemma written_item (job : job_data) :
  single_line_job job = true ->
  writexml "    " "  " NL (to_dom (item_of job))
  = joined_before NL (item_lines job).
Proof.
  intro H. destruct (single_line_job_texts job H) as [Ht [Hl Hd]].
  unfold item_of, text_element. rewrite to_dom_no_text.
  rewrite writexml_nested by (left; simpl; lia).
  cbn [map]. rewrite !join_empty_cons.
  fold (item_title_text job) (item_link_text job) (item_description_text job).
  rewrite !written_text_element by assumption.
  unfold joined_before, item_lines. cbn [map]. rewrite !join_empty_cons.
  change (qname "item") with "item". change (qname "title") with "title".
  change (qname "link") with "link".
  change (qname "description") with "description".
  change (qname "guid") with "guid".
  change ("    " ++ "  ") with "      ".
  generalize (element_line "      " "title" [] (item_title_text job)).
  generalize (element_line "      " "link" [] (item_link_text job)).
  generalize (element_line "      " "description" []
                           (item_description_text job)).
  generalize (element_line "      " "guid" [("isPermaLink", "true")]
                           (item_link_text job)).
  intros g d l t. rewrite ?append_assoc. reflexivity.
Qed.

Lemma joined_before_app (sep : string) (xs ys : list string) :
  joined_before sep (app xs ys) = joined_before sep xs ++ joined_before sep ys.
Proof.
  unfold joined_before. now rewrite map_app, join_empty_app.
Qed.

Lemma written_items (jobs : list job_data) :
  forallb single_line_job jobs = true ->
  Py.join "" (map (writexml "    " "  " NL) (map to_dom (map item_of jobs)))
  = joined_before NL (flat_map item_lines jobs).
Proof.
  induction jobs as [|job jobs IH]; [reflexivity|].
  cbn [forallb map flat_map]. rewrite andb_true_iff. intros [Hjob Hjobs].
  now rewrite join_empty_cons, joined_before_app, (written_item job Hjob), IH.
Qed.

Lemma pretty_tail_lines (jobs : list job_data) :
  forallb single_line_job jobs = true ->
  pretty_tail jobs
  = joined_before NL (app (flat_map item_lines jobs) closing_lines).
Proof.
  intro H. unfold pretty_tail.
  now rewrite (written_items jobs H), joined_before_app.
Qed.

Lemma split_joined_before (lines : list string) :
  Forall (fun line => all_chars not_LF line = true) lines ->
  Py.split_lines (joined_before NL lines) = app lines [""].
Proof.
  induction 1 as [|x l Hx Hl IH]; [reflexivity|].
  unfold joined_before. cbn [map]. rewrite join_empty_cons.
  fold (joined_before NL l). unfold NL at 1. rewrite append_assoc.
  cbn [append]. now rewrite split_lines_app_LF, (split_lines_one x Hx), IH.
Qed.

Lemma filter_all {A : Type} (p : A -> bool) (l : list A) :
  Forall (fun x => p x = true) l -> filter p l = l.
Proof.
  induction 1 as [|x l Hx Hl IH]; [reflexivity|].
  cbn [filter]. now rewrite Hx, IH.
Qed.

Lemma keep_line_indented (rest : string) :
  keep_line ("      " ++ String "<" rest) = true.
Proof.
  unfold keep_line, Py.strip.
  change (Py.lstrip ("      " ++ String "<" rest)) with (String "<" rest).
  now apply rstrip_keeps.
Qed.

Lemma element_line_no_LF (tag : string) (attrib : list (string * string))
      (text : string) :
  single_line text = true ->
  all_chars not_LF tag = true ->
  all_chars not_LF (Py.join "" (map write_attr attrib)) = true ->
  all_chars not_LF (element_line "      " tag attrib text) = true.
Proof.
  intros Htext Htag Hattr.
  unfold element_line. rewrite !all_chars_app, Htag, Hattr.
  destruct (Py.truthy text); [|reflexivity].
  now rewrite !all_chars_app, Htag, (single_line_written _ Htext).
Qed.

Lemma element_line_kept (tag : string) (attrib : list (string * string))
      (text : string) :
  keep_line (element_line "      " tag attrib text) = true.
Proof.
  exact (keep_line_indented
           (tag ++ Py.join "" (map write_attr attrib)
            ++ (if Py.truthy text
                then ">" ++ write_data text ++ "</" ++ tag ++ ">"
                else "/>"))).
Qed.

Lemma item_lines_ok (job : job_data) :
  single_line_job job = true ->
  Forall (fun line => all_chars not_LF line = true) (item_lines job) /\
  Forall (fun line => keep_line line = true) (item_lines job).
Proof.
  intro H. destruct (single_line_job_texts job H) as [Ht [Hl Hd]].
  unfold item_lines. split.
  - apply Forall_cons; [reflexivity|].
    apply Forall_cons; [now apply element_line_no_LF|].
    apply Forall_cons; [now apply element_line_no_LF|].
    apply Forall_cons; [now apply element_line_no_LF|].
    apply Forall_cons; [now apply element_line_no_LF|].
    apply Forall_cons; [reflexivity | apply Forall_nil].
  - apply Forall_cons; [reflexivity|].
    apply Forall_cons; [apply element_line_kept|].
    apply Forall_cons; [apply element_line_kept|].
    apply Forall_cons; [apply element_line_kept|].
    apply Forall_cons; [apply element_line_kept|].
    apply Forall_cons; [reflexivity | apply Forall_nil].
Qed.

Lemma items_lines_ok (jobs : list job_data) :
  forallb single_line_job jobs = true ->
  Forall (fun line => all_chars not_LF line = true) (flat_map item_lines jobs) /\
  Forall (fun line => keep_line line = true) (flat_map item_lines jobs).
Proof.
  induction jobs as [|job jobs IH]; [now split|].
  cbn [forallb flat_map]. rewrite andb_true_iff. intros [Hjob Hjobs].
  destruct (item_lines_ok job Hjob) as [A B]. destruct (IH Hjobs) as [C D].
  split; apply Forall_app; auto.
Qed.

Lemma kept_tail_lines (jobs : list job_data) :
  forallb single_line_job jobs = true ->
  filter keep_line (Py.split_lines (pretty_tail jobs))
  = app (flat_map item_lines jobs) closing_lines.
Proof.
  intro H. destruct (items_lines_ok jobs H) as [Hlf Hkeep].
  rewrite (pretty_tail_lines jobs H), split_joined_before.
  - rewrite filter_app. cbn [filter]. change (keep_line "") with false.
    rewrite app_nil_r. apply filter_all, Forall_app. split; [exact Hkeep|].
    repeat constructor.
  - apply Forall_app. split; [exact Hlf | repeat constructor].
Qed.

Lemma kept_head_lines :
  filter keep_line (Py.split_lines pretty_head) = channel_lines.
Proof.
  vm_compute. reflexivity.
Qed.

Lemma feed_text_lines (now : struct_time) (jobs : list job_data) :
  forallb single_line_job jobs = true ->
  feed_text now jobs = Some (Py.join NL (feed_lines now jobs)).
Proof.
  intro H. rewrite feed_text_eq, (texts_ok_single_lines jobs H).
  rewrite kept_head_lines, (kept_tail_lines jobs H).
  unfold feed_lines. now rewrite join_middle.
Qed.





(* ------------------------------------------------------------------ *)
(** *** C8: one item per record *)




Example item_lines_of_anchor_record :
  item_lines Pages.anchor_record
  = [ "    <item>";
      "      <title>Senior Agronomist</title>";
      "      <link>https://job.ifad.org/careers/123</link>";
      "      <description>Senior Agronomist</description>";
      "      <guid" ++ write_attr ("isPermaLink", "true")
        ++ ">https://job.ifad.org/careers/123</guid>";
      "    </item>" ].
Proof.
  vm_compute. reflexivity.
Qed.

(* ------------------------------------------------------------------ *)
(** *** From the records to the items *)

Lemma complete_item_lines (id : option string) (t l : string)
      (loc dep : option string) (d : string) :
  t <> "" -> l <> "" -> d <> "" ->
  item_lines (mk_job id (Some t) (Some l) loc dep (Some d))
  = [ "    <item>";
      "      <title>" ++ Feed.write_data t ++ "</title>";
      "      <link>" ++ Feed.write_data l ++ "</link>";
      "      <description>" ++ Feed.write_data d ++ "</description>";
      "      <guid" ++ Feed.write_attr ("isPermaLink", "true") ++ ">"
        ++ Feed.write_data l ++ "</guid>";
      "    </item>" ].
Proof.
  intros Ht Hl Hd. apply truthy_true in Ht, Hl, Hd.
  unfold item_lines, element_line, item_title_text, item_link_text,
    item_description_text.
  cbn [title link description Feed.get_or]. rewrite Ht, Hl, Hd. reflexivity.
Qed.

Lemma description_truthy (t l d : string) :
  t <> "" -> make_description t l d <> "".
Proof.
  intros Ht E. destruct (description_starts_with_title t l d) as [rest Hrest].
  rewrite Hrest in E. destruct t; [contradiction | discriminate].
Qed.

(** X10: every record of a run has the keys title, link and description,
    none of them empty.  So its item holds exactly these and none of the
    defaults that [generate_rss_feed] keeps for a missing key, in the tree
    and in the lines written for it, where no element takes the
    empty-element form; and when the texts of the records stay on one line
    the written feed is made of the channel lines, the build date, these
    item lines in the order of the records, and the closing tags. *)
Theorem X10_items_without_defaults (contents : list PageElement) (r : job_data) :
  In r (scrape_ifad_jobs contents) ->
  exists t l d,
    title r = Some t /\ link r = Some l /\ description r = Some d /\
    t <> "" /\ l <> "" /\ d <> "" /\
    Feed.item_of r
    = Feed.ET "item" [] None
        [ Feed.ET "title" [] (Some t) [];
          Feed.ET "link" [] (Some l) [];
          Feed.ET "description" [] (Some d) [];
          Feed.ET "guid" [("isPermaLink", "true")] (Some l) [] ] /\
    item_lines r
    = [ "    <item>";
        "      <title>" ++ Feed.write_data t ++ "</title>";
        "      <link>" ++ Feed.write_data l ++ "</link>";
        "      <description>" ++ Feed.write_data d ++ "</description>";
        "      <guid" ++ Feed.write_attr ("isPermaLink", "true") ++ ">"
          ++ Feed.write_data l ++ "</guid>";
        "    </item>" ] /\
    (forall now,
        forallb single_line_job (scrape_ifad_jobs contents) = true ->
        Feed.feed_text now (scrape_ifad_jobs contents)
        = Some (Py.join NL
                  (app channel_lines
                       (build_date_line (Feed.strftime now)
                        :: app (flat_map item_lines (scrape_ifad_jobs contents))
                               closing_lines)))).
Proof.
  intro H.
  assert (W : forall now,
             forallb single_line_job (scrape_ifad_jobs contents) = true ->
             Feed.feed_text now (scrape_ifad_jobs contents)
             = Some (Py.join NL
                       (app channel_lines
                            (build_date_line (Feed.strftime now)
                             :: app (flat_map item_lines
                                              (scrape_ifad_jobs contents))
                                    closing_lines))))
    by (intros now Hs; exact (feed_text_lines now _ Hs)).
  apply in_scrape in H as [c [_ Hr]].
  destruct c as [k id | element]; cbn [process] in Hr.
  - apply process_indexed_some in Hr as [t [_ [Ht ->]]].
    assert (Hl : DETAIL_URL ++ id <> "")
      by apply truthy_true, http_truthy, detail_url_is_http.
    do 3 eexists. do 3 (split; [reflexivity|]).
    split; [exact Ht|]. split; [exact Hl|].
    split; [now apply description_truthy|]. split; [reflexivity|].
    split; [|exact W].
    apply complete_item_lines; auto using description_truthy.
  - apply process_anchor_some in Hr as [l [Hlink [Ht [_ [_ ->]]]]].
    assert (Hl : l <> "")
      by apply truthy_true, http_truthy, (element_link_http _ _ Hlink).
    do 3 eexists. do 3 (split; [reflexivity|]).
    split; [exact Ht|]. split; [exact Hl|].
    split; [now apply description_truthy|]. split; [reflexivity|].
    split; [|exact W].
    apply complete_item_lines; auto using description_truthy.
Qed.

Lemma X10_witness :
  exists t l d,
    title Pages.anchor_record = Some t /\
    link Pages.anchor_record = Some l /\
    description Pages.anchor_record = Some d /\
    t <> "" /\ l <> "" /\ d <> "" /\
    Feed.item_of Pages.anchor_record
    = Feed.ET "item" [] None
        [ Feed.ET "title" [] (Some t) [];
          Feed.ET "link" [] (Some l) [];
          Feed.ET "description" [] (Some d) [];
          Feed.ET "guid" [("isPermaLink", "true")] (Some l) [] ] /\
    item_lines Pages.anchor_record
    = [ "    <item>";
        "      <title>" ++ Feed.write_data t ++ "</title>";
        "      <link>" ++ Feed.write_data l ++ "</link>";
        "      <description>" ++ Feed.write_data d ++ "</description>";
        "      <guid" ++ Feed.write_attr ("isPermaLink", "true") ++ ">"
          ++ Feed.write_data l ++ "</guid>";
        "    </item>" ] /\
    (forall now,
        forallb single_line_job (scrape_ifad_jobs Pages.page_anchor) = true ->
        Feed.feed_text now (scrape_ifad_jobs Pages.page_anchor)
        = Some (Py.join NL
                  (app channel_lines
                       (build_date_line (Feed.strftime now)
                        :: app (flat_map item_lines
                                         (scrape_ifad_jobs Pages.page_anchor))
                               closing_lines)))).
Proof.
  apply (X10_items_without_defaults Pages.page_anchor Pages.anchor_record).
  vm_compute. left. reflexivity.
Defined.
